(** * Mortality audit dashboard: normalisation and aggregation

    A shallow embedding of the data logic of the paediatric mortality audit
    pages (upload and validation, monthly summary, month-to-month
    comparison, diagnosis and age analysis), with the properties the
    specification states about them.

    Tables are pandas frames: ordered columns of cells, looked up by label
    (the first column that carries the label answers).  Numbers of dtype
    float64 are read as exact rationals, so there is neither overflow nor
    rounding error; NaN, NaT and pd.NA are one missing value.  What pandas
    itself parses and prints (dates, numerals, floats) is a parameter of
    the development, the class [Frame.Pandas]. *)

From Stdlib Require Import ZArith QArith Qround Qabs List String Ascii Bool Lia.
From Stdlib Require Import DecimalString Lqa.
From Stdlib Require Import Sorted.
Import ListNotations.

Local Open Scope string_scope.
Local Open Scope Z_scope.

(** ** Python strings (the ASCII fragment) *)

Module PyStr.

(** [str.isspace] on one character: TAB, LF, VT, FF, CR, the four
    separators 28..31 and the blank. *)
Definition is_space (c : ascii) : bool :=
  let n := nat_of_ascii c in
  ((9 <=? n) && (n <=? 13) || (28 <=? n) && (n <=? 32))%nat.

Definition is_upper (c : ascii) : bool :=
  let n := nat_of_ascii c in ((65 <=? n) && (n <=? 90))%nat.

Definition is_lower (c : ascii) : bool :=
  let n := nat_of_ascii c in ((97 <=? n) && (n <=? 122))%nat.

Definition is_cased (c : ascii) : bool := is_upper c || is_lower c.

Definition is_digit (c : ascii) : bool :=
  let n := nat_of_ascii c in ((48 <=? n) && (n <=? 57))%nat.

Definition lower_char (c : ascii) : ascii :=
  if is_upper c then ascii_of_nat (nat_of_ascii c + 32) else c.

Definition upper_char (c : ascii) : ascii :=
  if is_lower c then ascii_of_nat (nat_of_ascii c - 32) else c.

Fixpoint smap (f : ascii -> ascii) (s : string) : string :=
  match s with
  | EmptyString => EmptyString
  | String c r => String (f c) (smap f r)
  end.

Definition lower : string -> string := smap lower_char.
Definition upper : string -> string := smap upper_char.

Fixpoint lstrip (s : string) : string :=
  match s with
  | String c r => if is_space c then lstrip r else s
  | EmptyString => EmptyString
  end.

(** [rstrip]: a character is dropped when it is blank and everything after
    it has been dropped. *)
Fixpoint rstrip (s : string) : string :=
  match s with
  | EmptyString => EmptyString
  | String c r =>
      match rstrip r with
      | EmptyString => if is_space c then EmptyString else String c EmptyString
      | r' => String c r'
      end
  end.

Definition strip (s : string) : string := rstrip (lstrip s).

Definition startswith (s p : string) : bool := String.prefix p s.

(** [sub in s] *)
Fixpoint contains (s sub : string) : bool :=
  String.prefix sub s ||
  match s with
  | EmptyString => false
  | String _ r => contains r sub
  end.

(** [str.title]: a cased character is upper-cased when the character before
    it is not cased, lower-cased otherwise. *)
Fixpoint title_from (prev_cased : bool) (s : string) : string :=
  match s with
  | EmptyString => EmptyString
  | String c r =>
      String (if prev_cased then lower_char c else upper_char c)
             (title_from (is_cased c) r)
  end.

Definition title : string -> string := title_from false.

(** [sep.join(parts)] *)
Fixpoint join (sep : string) (parts : list string) : string :=
  match parts with
  | [] => EmptyString
  | [p] => p
  | p :: rest => p ++ sep ++ join sep rest
  end.

(** [str(z)] for an integer. *)
Definition of_Z (z : Z) : string := NilZero.string_of_int (Z.to_int z).

(** [sorted] on strings compares code points. *)
Definition leb (a b : string) : bool :=
  match String.compare a b with Gt => false | _ => true end.

End PyStr.


(** ** Frames *)

Module Frame.

Record date := mkDate { year : Z; month : Z; day : Z }.

(** One value of a Series.  [NA] stands for NaN, NaT, None and pd.NA;
    [Int] for int64 and Int64, [Float] for a finite float64, [Str] for a
    Python string in an object column, [Timestamp] for datetime64 (the
    pages only use its calendar date) and [Period] for a monthly period. *)
Inductive cell :=
| NA
| Int (z : Z)
| Float (q : Q)
| Str (s : string)
| Timestamp (d : date)
| Period (y m : Z).

Definition column := list cell.

(** A DataFrame with a default index: labelled columns, in order. *)
Definition frame := list (string * column).

Definition isna (c : cell) : bool :=
  match c with NA => true | _ => false end.

Definition notna (c : cell) : bool := negb (isna c).

(** [x == s] for a text [s]. *)
Definition is_str (s : string) (x : cell) : bool :=
  match x with Str t => String.eqb t s | _ => false end.

Definition columns (df : frame) : list string := map fst df.

(** [df[c]], [None] where Python raises KeyError. *)
Fixpoint col (c : string) (df : frame) : option column :=
  match df with
  | [] => None
  | (k, v) :: rest => if String.eqb k c then Some v else col c rest
  end.

(** [c in df.columns] *)
Definition has_col (c : string) (df : frame) : bool :=
  match col c df with Some _ => true | None => false end.

(** [df[c] = v]: overwrite in place, or append a new last column. *)
Fixpoint set_col (c : string) (v : column) (df : frame) : frame :=
  match df with
  | [] => [(c, v)]
  | (k, w) :: rest =>
      if String.eqb k c then (k, v) :: rest else (k, w) :: set_col c v rest
  end.

(** [len(df)] *)
Definition nrows (df : frame) : nat :=
  match df with
  | [] => O
  | (_, v) :: _ => List.length v
  end.

(** The column a scalar assignment [df[c] = x] writes. *)
Definition broadcast (x : cell) (df : frame) : column := repeat x (nrows df).

(** Boolean indexing of one column. *)
Fixpoint mask_filter {A : Type} (mask : list bool) (l : list A) : list A :=
  match mask, l with
  | b :: m, x :: r => if b then x :: mask_filter m r else mask_filter m r
  | _, _ => []
  end.

Definition col_or_na (c : string) (df : frame) : column :=
  match col c df with
  | Some v => v
  | None => broadcast NA df
  end.

(** [pd.concat([a, b], ignore_index=True)]: the union of the labels, the
    first frame's first, a missing column filled with NA. *)
Definition concat (a b : frame) : frame :=
  let labels := (columns a ++ filter (fun c => negb (has_col c a)) (columns b))%list in
  map (fun c => (c, (col_or_na c a ++ col_or_na c b)%list)) labels.

(** *** Numbers *)

Local Open Scope Q_scope.

(** [round] of numpy and pandas: to the nearest integer, a tie to the even
    one. *)
Definition round_half_even (q : Q) : Z :=
  let f := Qfloor q in
  match Qcompare (q - inject_Z f) (1 # 2) with
  | Lt => f
  | Gt => (f + 1)%Z
  | Eq => if Z.even f then f else (f + 1)%Z
  end.

(** [x.round(2)] *)
Definition round2 (q : Q) : Q := Qred (inject_Z (round_half_even (q * 100)) / 100).

Fixpoint insert_sorted (x : Q) (l : list Q) : list Q :=
  match l with
  | [] => [x]
  | y :: r => if Qle_bool x y then x :: l else y :: insert_sorted x r
  end.

Definition sort_values (l : list Q) : list Q := fold_right insert_sorted [] l.

(** [Series.median] of a sample without missing values: the middle value,
    or the mean of the two middle values. *)
Definition median (l : list Q) : Q :=
  let s := sort_values l in
  let n := List.length s in
  if Nat.even n
  then Qred ((nth (n / 2 - 1) s 0 + nth (n / 2) s 0) / 2)
  else nth (n / 2) s 0.

(** The number in a numeric cell. *)
Definition num (c : cell) : option Q :=
  match c with
  | Int z => Some (inject_Z z)
  | Float q => Some q
  | _ => None
  end.

Fixpoint dropna_num (v : column) : list Q :=
  match v with
  | [] => []
  | c :: r => match num c with
              | Some q => q :: dropna_num r
              | None => dropna_num r
              end
  end.

Local Close Scope Q_scope.

(** *** The pandas primitives the pages rely on

    [parse_datetime v x] is the value [pd.to_datetime(v, errors="coerce")]
    gives the element [x] of the column [v] (the format is guessed from the
    column, so the whole column is an argument); [parse_float] is what
    [pd.to_numeric] reads in a text; [repr_float] is [str] of a float. *)
Class Pandas := {
  parse_datetime : column -> cell -> option date;
  parse_float : string -> option Q;
  repr_float : Q -> string
}.

Section Conversions.
Context {P : Pandas}.

(** [pd.to_datetime(v, errors="coerce")] *)
Definition to_datetime (v : column) : column :=
  map (fun x => match parse_datetime v x with
                | Some d => Timestamp d
                | None => NA
                end) v.

(** [pd.to_numeric(v, errors="coerce")], one element. *)
Definition to_numeric (x : cell) : cell :=
  match x with
  | Int z => Int z
  | Float q => Float q
  | Str s => match parse_float s with
             | Some q => Float q
             | None => NA
             end
  | _ => NA
  end.

Definition pad2 (z : Z) : string :=
  if (z <? 10) then "0" ++ PyStr.of_Z z else PyStr.of_Z z.

Definition pad4 (z : Z) : string :=
  if (z <? 10) then "000" ++ PyStr.of_Z z
  else if (z <? 100) then "00" ++ PyStr.of_Z z
  else if (z <? 1000) then "0" ++ PyStr.of_Z z
  else PyStr.of_Z z.

(** [astype(str)], one element. *)
Definition astype_str (x : cell) : string :=
  match x with
  | NA => "nan"
  | Int z => PyStr.of_Z z
  | Float q => repr_float q
  | Str s => s
  | Timestamp d => pad4 (year d) ++ "-" ++ pad2 (month d) ++ "-" ++ pad2 (day d)
  | Period y m => pad4 y ++ "-" ++ pad2 m
  end.

(** [dt.to_period("M")], one element. *)
Definition to_period_M (x : cell) : cell :=
  match x with
  | Timestamp d => Period (year d) (month d)
  | _ => NA
  end.

(** [dt.to_period("M").astype(str)], one element: a missing date is
    written [NaT]. *)
Definition month_label (x : cell) : string :=
  match to_period_M x with
  | Period y m => pad4 y ++ "-" ++ pad2 m
  | _ => "NaT"
  end.

End Conversions.

End Frame.

(** ** Step 1: upload and validate *)

Module Step1.
Import Frame.

Definition recognized_date_cols : list string :=
  ["admission_date"; "discharge_date"; "death_date"].

Definition minimal_candidates : list string :=
  ["admission_date"; "outcome"; "primary_diagnosis"].

Fixpoint col_exists_any (df : frame) (names : list string) : option string :=
  match names with
  | [] => None
  | n :: rest => if has_col n df then Some n else col_exists_any df rest
  end.

(** What [validate_and_normalize] returns: the table (or None), the
    errors, the warnings, the missing-value report and the date column the
    month was taken from. *)
Record result := mkResult {
  table : option frame;
  errors : list string;
  warnings : list string;
  missing_report : list (string * nat);
  date_for_month : option string
}.

Section Normalizer.
Context {P : Pandas}.

(** [df.columns = [str(c).strip() for c in df.columns]] *)
Definition strip_columns (df : frame) : frame :=
  map (fun kv => (PyStr.strip (fst kv), snd kv)) df.

(** The loop over [recognized_date_cols]. *)
Definition parse_dates (df : frame) : frame :=
  fold_left (fun d c => match col c d with
                        | Some v => set_col c (to_datetime v) d
                        | None => d
                        end) recognized_date_cols df.

(** [(pd.to_numeric(v, errors="coerce") * k).round().astype("Int64")] *)
Definition scaled (k : Z) (v : column) : column :=
  map (fun x => match num (to_numeric x) with
                | Some q => Int (round_half_even (q * inject_Z k))
                | None => NA
                end) v.

(** The age block: the frame with [age_days] derived, and
    [age_days_col]. *)
Definition derive_age (df : frame) : frame * option string :=
  match col "age_days" df with
  | Some _ => (df, Some "age_days")
  | None =>
    match col "age" df with
    | Some age =>
        let sample := dropna_num (map to_numeric age) in
        match sample with
        | [] => (df, None)
        | _ =>
            let med := median sample in
            let days :=
              if Qle_bool med 30 then map to_numeric age
              else if negb (Qle_bool 100 med) then scaled 30 age
              else scaled 365 age in
            (set_col "age_days" days df, Some "age_days")
        end
    | None =>
      match col "age_months" df with
      | Some m => (set_col "age_days" (scaled 30 m) df, Some "age_days")
      | None =>
        match col "age_years" df with
        | Some y => (set_col "age_days" (scaled 365 y) df, Some "age_days")
        | None => (df, None)
        end
      end
    end
  end.

(** One element of [sex_norm]. *)
Definition sex_code (x : cell) : cell :=
  let s := PyStr.upper (PyStr.strip (astype_str x)) in
  let s := if String.eqb s "MALE" then "M"
           else if String.eqb s "FEMALE" then "F" else s in
  if existsb (String.eqb s) ["M"; "F"] then Str s else Str "Unknown".

(** The lambda mapped over the lower-cased outcome. *)
Definition outcome_code (x : string) : string :=
  if PyStr.contains x "dead" || PyStr.startswith x "d" then "Dead"
  else if PyStr.contains x "alive" || PyStr.startswith x "a" then "Alive"
  else PyStr.title x.

(** One element of [outcome_norm]. *)
Definition outcome_norm_of (x : cell) : cell :=
  Str (outcome_code (PyStr.lower (PyStr.strip (astype_str x)))).

Definition normalize_sex (df : frame) : frame * list string :=
  match col "sex" df with
  | Some v => (set_col "sex_norm" (map sex_code v) df, [])
  | None => (set_col "sex_norm" (broadcast (Str "Unknown") df) df,
             ["No sex column found; created sex_norm = Unknown"])
  end.

Definition normalize_outcome (df : frame) : frame * list string :=
  match col "outcome" df with
  | Some v => (set_col "outcome_norm" (map outcome_norm_of v) df, [])
  | None => (set_col "outcome_norm" (broadcast NA df) df,
             ["No outcome column found. Please add outcome (Alive/Dead)"])
  end.

Definition normalize_diagnosis (df : frame) : frame * list string :=
  match col "primary_diagnosis" df with
  | Some _ => (df, [])
  | None =>
      match col_exists_any df ["diagnosis"; "dx"; "primary_dx"] with
      | Some alt =>
          (set_col "primary_diagnosis"
                   (map (fun x => Str (astype_str x)) (col_or_na alt df)) df,
           ["Mapped diagnosis column '" ++ alt ++ "' to primary_diagnosis"])
      | None =>
          (set_col "primary_diagnosis" (broadcast (Str "UNKNOWN") df) df,
           ["No primary_diagnosis found. Filled as UNKNOWN"])
      end
  end.

(** [has_col c df and df[c].notna().any()] *)
Definition usable_date (c : string) (df : frame) : option column :=
  match col c df with
  | Some v => if existsb notna v then Some v else None
  | None => None
  end.

Definition derive_month (df : frame) : frame * list string * option string :=
  match usable_date "admission_date" df with
  | Some v => (set_col "month" (map to_period_M v) df, [], Some "admission_date")
  | None =>
      match usable_date "death_date" df with
      | Some v => (set_col "month" (map to_period_M v) df, [], Some "death_date")
      | None => (set_col "month" (broadcast NA df) df,
                 ["No usable date to derive month"], None)
      end
  end.

(** [df.isna().sum().to_dict()] *)
Definition isna_sum (df : frame) : list (string * nat) :=
  map (fun kv => (fst kv, List.length (filter isna (snd kv)))) df.

Definition fatal_message : string :=
  "File must contain at least one of the minimal columns: admission_date, outcome, primary_diagnosis".

Definition validate_and_normalize (raw : frame) : result :=
  let df := strip_columns raw in
  if negb (existsb (fun c => has_col c df) minimal_candidates) then
    mkResult None [fatal_message] [] [] None
  else
    let df := parse_dates df in
    let '(df, age_days_col) := derive_age df in
    let w_age :=
      match age_days_col with
      | None => ["No recognizable age columns found (age_days, age_months, age_years)"]
      | Some _ => []
      end in
    let '(df, w_sex) := normalize_sex df in
    let '(df, w_outcome) := normalize_outcome df in
    let '(df, w_diag) := normalize_diagnosis df in
    let '(df, w_month, dfm) := derive_month df in
    mkResult (Some df) [] (w_age ++ w_sex ++ w_outcome ++ w_diag ++ w_month)%list
             (isna_sum df) dfm.

(** The table the normaliser returns past the gate: its stages in order. *)
Definition pipeline (raw : frame) : frame :=
  fst (fst (derive_month
    (fst (normalize_diagnosis
      (fst (normalize_outcome
        (fst (normalize_sex
          (fst (derive_age (parse_dates (strip_columns raw)))))))))))).

(** [df[c]] of the returned table, when there is one. *)
Definition result_col (c : string) (r : result) : option column :=
  match table r with
  | Some df => col c df
  | None => None
  end.

End Normalizer.

End Step1.

(** ** A concrete reading of the pandas primitives

    Enough of pandas to run the pages on concrete files: dates written
    YYYY-MM-DD, plain decimal numerals, and CSV text with minimal quoting.
    The general properties below hold for every instance of [Pandas]; this
    one is used to evaluate the pages on the bundled sample and on other
    concrete tables. *)

Module Plain.
Import Frame.

Fixpoint digits_value (acc : Z) (s : string) : option Z :=
  match s with
  | EmptyString => Some acc
  | String c r =>
      if PyStr.is_digit c
      then digits_value (10 * acc + Z.of_nat (nat_of_ascii c - 48)) r
      else None
  end.

(** A non-empty run of decimal digits. *)
Definition natural (s : string) : option Z :=
  match s with
  | EmptyString => None
  | _ => digits_value 0 s
  end.

Definition leap (y : Z) : bool :=
  ((y mod 4 =? 0) && negb (y mod 100 =? 0)) || (y mod 400 =? 0).

Definition days_in_month (y m : Z) : Z :=
  if m =? 2 then (if leap y then 29 else 28)
  else if (m =? 4) || (m =? 6) || (m =? 9) || (m =? 11) then 30
  else 31.

(** A date written YYYY-MM-DD, inside the years a Timestamp can hold. *)
Definition iso_date (s : string) : option date :=
  if negb (Nat.eqb (String.length s) 10) then None else
  match natural (substring 0 4 s), natural (substring 5 2 s),
        natural (substring 8 2 s) with
  | Some y, Some m, Some d =>
      if String.eqb (substring 4 1 s) "-" && String.eqb (substring 7 1 s) "-"
         && (1678 <=? y) && (y <=? 2261) && (1 <=? m) && (m <=? 12)
         && (1 <=? d) && (d <=? days_in_month y m)
      then Some (mkDate y m d) else None
  | _, _, _ => None
  end.

Fixpoint split_on (sep : ascii) (s : string) : list string :=
  match s with
  | EmptyString => [EmptyString]
  | String c r =>
      if Ascii.eqb c sep then EmptyString :: split_on sep r
      else match split_on sep r with
           | h :: t => String c h :: t
           | [] => [String c EmptyString]
           end
  end.

Definition unsigned_decimal (s : string) : option Q :=
  match split_on "." s with
  | [i] => match natural i with
           | Some z => Some (inject_Z z)
           | None => None
           end
  | [i; f] =>
      match natural i, natural f with
      | Some a, Some b =>
          Some (Qred (inject_Z a + inject_Z b / inject_Z (10 ^ Z.of_nat (String.length f))))
      | _, _ => None
      end
  | _ => None
  end.

(** An optional sign, digits, and an optional fraction. *)
Definition decimal (s : string) : option Q :=
  match s with
  | String "-" r => option_map (fun q => Qred (- q)) (unsigned_decimal r)
  | String "+" r => unsigned_decimal r
  | _ => unsigned_decimal s
  end.

Definition is_integer_text (s : string) : bool :=
  match s with
  | String "-" r | String "+" r => match natural r with Some _ => true | None => false end
  | _ => match natural s with Some _ => true | None => false end
  end.

Fixpoint fraction_digits (fuel : nat) (num den : Z) : string :=
  match fuel with
  | O => EmptyString
  | S k =>
      if num =? 0 then EmptyString
      else (PyStr.of_Z (10 * num / den) ++ fraction_digits k (10 * num mod den) den)%string
  end.

(** [str] of a float with at most 17 decimals: [10.0], [-0.25]. *)
Definition float_text (q : Q) : string :=
  let a := Qabs q in
  let i := Qfloor a in
  let n := Qnum a - i * Zpos (Qden a) in
  let frac := fraction_digits 17 n (Zpos (Qden a)) in
  ((if Qle_bool 0 q then EmptyString else "-") ++ PyStr.of_Z i ++ "." ++
   (match frac with EmptyString => "0" | _ => frac end))%string.

#[export] Instance pandas : Pandas := {
  parse_datetime := fun _ x =>
    match x with
    | Str s => iso_date (PyStr.strip s)
    | Timestamp d => Some d
    | _ => None
    end;
  parse_float := fun s => decimal (PyStr.strip s);
  repr_float := float_text
}.

(** *** CSV text *)

Definition LF : ascii := "010"%char.
Definition CR : ascii := "013"%char.
Definition QUOTE : ascii := "034"%char.
Definition COMMA : ascii := ","%char.

Fixpoint has_char (p : ascii -> bool) (s : string) : bool :=
  match s with
  | EmptyString => false
  | String c r => p c || has_char p r
  end.

Fixpoint double_quotes (s : string) : string :=
  match s with
  | EmptyString => EmptyString
  | String c r =>
      if Ascii.eqb c QUOTE then String QUOTE (String QUOTE (double_quotes r))
      else String c (double_quotes r)
  end.

(** A field under QUOTE_MINIMAL. *)
Definition quote_field (s : string) : string :=
  if has_char (fun c => Ascii.eqb c COMMA || Ascii.eqb c QUOTE
                        || Ascii.eqb c LF || Ascii.eqb c CR) s
  then (String QUOTE (double_quotes s) ++ String QUOTE EmptyString)%string
  else s.

Definition field_of_cell (x : cell) : string :=
  match x with
  | NA => EmptyString
  | _ => quote_field (astype_str x)
  end.

Definition row_at (df : frame) (i : nat) : list cell :=
  map (fun kv => nth i (snd kv) NA) df.

Definition line (fields : list string) : string :=
  (PyStr.join "," fields ++ String LF EmptyString)%string.

(** [df.to_csv(buf, index=False)] *)
Definition to_csv (df : frame) : string :=
  String.concat EmptyString
    (line (map quote_field (columns df))
     :: map (fun i => line (map field_of_cell (row_at df i))) (seq 0 (nrows df))).

(** The reader's state: inside quotes or not, the field and the record
    being read (both reversed), and the records read so far (reversed). *)
Fixpoint revstr (acc s : string) : string :=
  match s with
  | EmptyString => acc
  | String c r => revstr (String c acc) r
  end.

Definition close_field (field : string) (record : list string) : list string :=
  revstr EmptyString field :: record.

(** A blank line is skipped. *)
Definition close_record (field : string) (record : list string)
  (done : list (list string)) : list (list string) :=
  match field, record with
  | EmptyString, [] => done
  | _, _ => rev (close_field field record) :: done
  end.

Fixpoint records (quoted : bool) (field : string) (record : list string)
  (done : list (list string)) (s : string) : list (list string) :=
  match s with
  | EmptyString => rev (close_record field record done)
  | String c r =>
      if quoted then
        if Ascii.eqb c QUOTE then
          match r with
          | String c' r' =>
              if Ascii.eqb c' QUOTE
              then records true (String QUOTE field) record done r'
              else records false field record done r
          | EmptyString => records false field record done r
          end
        else records true (String c field) record done r
      else if Ascii.eqb c QUOTE then records true field record done r
      else if Ascii.eqb c COMMA
      then records false EmptyString (close_field field record) done r
      else if Ascii.eqb c LF || Ascii.eqb c CR
      then records false EmptyString [] (close_record field record done) r
      else records false (String c field) record done r
  end.

(** The texts [read_csv] takes for a missing value. *)
Definition na_values : list string :=
  [EmptyString; "#N/A"; "#N/A N/A"; "#NA"; "-1.#IND"; "-1.#QNAN"; "-NaN";
   "-nan"; "1.#IND"; "1.#QNAN"; "<NA>"; "N/A"; "NA"; "NULL"; "NaN"; "None";
   "n/a"; "nan"; "null"].

Definition is_na_text (s : string) : bool := existsb (String.eqb s) na_values.

(** The dtype of a column: int64 when every field is an integer, float64
    when every field present is a number, object otherwise (a column of
    True and False is kept as text). *)
Definition infer_column (fields : list string) : column :=
  let present := filter (fun s => negb (is_na_text s)) fields in
  if forallb is_integer_text fields then
    map (fun s => match decimal s with
                  | Some q => Int (Qfloor q)
                  | None => NA
                  end) fields
  else if forallb (fun s => match decimal s with Some _ => true | None => false end)
                  present then
    map (fun s => match decimal s with
                  | Some q => if is_na_text s then NA else Float q
                  | None => NA
                  end) fields
  else map (fun s => if is_na_text s then NA else Str s) fields.

(** [pd.read_csv(text)]; [None] when a row has more fields than the
    header, or there is no header. *)
Definition read_csv (text : string) : option frame :=
  match records false EmptyString [] [] text with
  | [] => None
  | header :: rows =>
      if existsb (fun r => (List.length header <? List.length r)%nat) rows
      then None
      else Some (map (fun i => (nth i header EmptyString,
                                infer_column (map (fun r => nth i r EmptyString) rows)))
                     (seq 0 (List.length header)))
  end.

(** [pd.DataFrame(rows)] for a list of dicts: the labels in the order they
    first appear; a column of integers with a hole is float64. *)
Definition labels_of (rows : list (list (string * cell))) : list string :=
  fold_left (fun acc row =>
               fold_left (fun acc kv =>
                            if existsb (String.eqb (fst kv)) acc then acc
                            else (acc ++ [fst kv])%list) row acc)
            rows [].

Definition promote (v : column) : column :=
  if existsb isna v
  then map (fun x => match x with Int z => Float (inject_Z z) | _ => x end) v
  else v.

Definition DataFrame (rows : list (list (string * cell))) : frame :=
  map (fun c => (c, promote (map (fun row => match col c (map (fun kv => (fst kv, [snd kv])) row) with
                                             | Some [x] => x
                                             | _ => NA
                                             end) rows)))
      (labels_of rows).

End Plain.

(** ** The bundled sample *)

Module Sample.
Import Frame.

Definition sample_df : frame :=
  Plain.DataFrame
    [ [ ("patient_id", Str "45991"); ("initials", Str "J.M.M"); ("sex", Str "M");
        ("age_days", Int 10); ("ward", Str "NBU");
        ("admission_date", Str "2025-09-01"); ("discharge_date", Str "0000-00-00");
        ("outcome", Str "Dead"); ("death_date", Str "2025-09-04");
        ("primary_diagnosis", Str "Neonatal Sepsis"); ("Notes", Str "SP puncture done") ];
      [ ("patient_id", Str "46781"); ("initials", Str "D.S.J"); ("sex", Str "F");
        ("age_months", Int 10); ("ward", Str "Pediatrics");
        ("admission_date", Str "2025-09-02"); ("discharge_date", Str "2025-09-09");
        ("outcome", Str "Alive"); ("death_date", Str "2025-09-04");
        ("primary_diagnosis", Str "Severe Pneumonia");
        ("Notes", Str "Counseled on danger signs") ] ].

Definition make_sample_csv_bytes : string := Plain.to_csv sample_df.

End Sample.

(** ** The analysis pages

    A page reads the session, and either shows what it computed, stops
    with a notice ([st.stop()]), or dies on a Python exception. *)

Module Page.
Import Frame.

(** [st.session_state], the two keys step 1 writes. *)
Record session := mkSession {
  df_current : option frame;
  df_previous : option frame
}.

Inductive error :=
| KeyError (label : string)
| IndexError
| TypeError.

Inductive notice :=
| UploadCurrentFirst      (* step 2: no current month in the session *)
| MissingDatasets         (* step 3: one of the two months is not uploaded *)
| MissingDateColumns      (* step 3: neither admission_date nor death_date *)
| NeedTwoMonths           (* step 3: fewer than two months to compare *)
| NoCleanData             (* step 4: step 1 not completed *)
| NoOutcomeColumn.        (* step 4: neither outcome_norm nor outcome *)

Inductive outcome (A : Type) :=
| Shown (a : A)
| Stopped (n : notice)
| Raised (e : error).

Arguments Shown {A} a.
Arguments Stopped {A} n.
Arguments Raised {A} e.

Definition bind {A B : Type} (m : outcome A) (k : A -> outcome B) : outcome B :=
  match m with
  | Shown a => k a
  | Stopped n => Stopped n
  | Raised e => Raised e
  end.

(** [df[c]] with its KeyError. *)
Definition getitem (c : string) (df : frame) : outcome column :=
  match col c df with
  | Some v => Shown v
  | None => Raised (KeyError c)
  end.

(** The positions of the index. *)
Definition index (df : frame) : list nat := seq 0 (nrows df).

(** The value of a column at a position of the index. *)
Definition at_row (v : column) (i : nat) : cell := nth i v NA.

(** [Series.unique()]: the distinct values in the order they first
    appear. *)
Fixpoint unique (l : list string) : list string :=
  match l with
  | [] => []
  | x :: r => x :: filter (fun y => negb (String.eqb y x)) (unique r)
  end.

Fixpoint insert_str (x : string) (l : list string) : list string :=
  match l with
  | [] => [x]
  | y :: r => if PyStr.leb x y then x :: l else y :: insert_str x r
  end.

(** [sorted(l)] *)
Definition sorted (l : list string) : list string := fold_right insert_str [] l.

Definition count_true (l : list bool) : nat := List.length (filter (fun b => b) l).

(** A float64 a division can give: a number, inf (n / 0), NaN (0 / 0). *)
Inductive float :=
| Fin (q : Q)
| Inf
| NaN.

(** [(deaths / admissions * 100).round(2)] on two columns of counts. *)
Definition rate_column (deaths admissions : nat) : float :=
  match admissions with
  | O => match deaths with O => NaN | _ => Inf end
  | _ => Fin (round2 (inject_Z (Z.of_nat deaths) / inject_Z (Z.of_nat admissions) * 100))
  end.

End Page.

Notation "x <- m ;; k" := (Page.bind m (fun x => k))
  (at level 61, m at next level, right associativity).

(** ** Step 2: monthly mortality summary *)

Module Step2.
Import Frame Page.

Record summary_row := mkRow {
  month : string;
  total_admissions : nat;
  total_deaths : nat;
  mortality_rate : float
}.

Section Summary.
Context {P : Pandas}.

(** The session's tables, previous then current. *)
Definition load (s : session) : outcome frame :=
  match df_current s with
  | None => Stopped UploadCurrentFirst
  | Some cur =>
      match df_previous s with
      | Some prev => Shown (concat prev cur)
      | None => Shown cur
      end
  end.

(** The loop over admission_date and death_date. *)
Definition process_dates (df : frame) : frame :=
  fold_left (fun d c => match col c d with
                        | Some v => set_col c (to_datetime v) d
                        | None => d
                        end) ["admission_date"; "death_date"] df.

(** The outcome text names a death. *)
Definition death_text (x : cell) : bool :=
  let t := PyStr.lower (astype_str x) in
  PyStr.contains t "dead" || String.eqb t "death".

(** [df_all["is_death"]], row by row. *)
Definition is_death (df : frame) : outcome (list bool) :=
  outcome_col <- getitem "outcome" df ;;
  Shown (map (fun i =>
                death_text (at_row outcome_col i)
                || match col "death_date" df with
                   | Some dd => notna (at_row dd i)
                   | None => false
                   end) (index df)).

(** [df_all["month"]], row by row. *)
Definition month_column (df : frame) : outcome (list string) :=
  adm <- getitem "admission_date" df ;;
  Shown (map (fun i => month_label (at_row adm i)) (index df)).

(** One group of the [groupby("month")]: the non-null patient identifiers
    counted, the death flags summed. *)
Definition group_row (months : list string) (ids : column) (deaths : list bool)
  (df : frame) (m : string) : summary_row :=
  let rows := filter (fun i => String.eqb (nth i months EmptyString) m) (index df) in
  let adm := List.length (filter (fun i => notna (at_row ids i)) rows) in
  let dth := count_true (map (fun i => nth i deaths false) rows) in
  mkRow m adm dth (rate_column dth adm).

(** [df_all] with its dates parsed. *)
Definition prepare (s : session) : outcome frame :=
  df <- load s ;;
  Shown (process_dates df).

(** The table [summary] the page shows. *)
Definition summary (s : session) : outcome (list summary_row) :=
  df <- prepare s ;;
  months <- month_column df ;;
  deaths <- is_death df ;;
  ids <- getitem "patient_id" df ;;
  Shown (map (group_row months ids deaths df) (sorted (unique months))).

End Summary.

End Step2.

(** ** Step 3: month-to-month comparison *)

Module Step3.
Import Frame Page.

(** What [mortality_stats] returns. *)
Record stats := mkStats {
  total_adm : nat;
  total_dead : nat;
  mortality_rate : Q
}.

Record comparison := mkComparison {
  month1 : string;
  month2 : string;
  stats1 : stats;
  stats2 : stats;
  diff : Q
}.

(** [mortality_stats(sub_df)], on the death flags of the rows of
    [sub_df]. *)
Definition mortality_stats (sub_df : list bool) : stats :=
  let total_adm := List.length sub_df in
  let total_dead := count_true sub_df in
  mkStats total_adm total_dead
    (if (0 <? total_adm)%nat
     then round2 (inject_Z (Z.of_nat total_dead) / inject_Z (Z.of_nat total_adm) * 100)
     else 0%Q).

Section Comparison.
Context {P : Pandas}.

Definition load (s : session) : outcome frame :=
  match df_current s, df_previous s with
  | Some cur, Some prev => Shown (concat prev cur)
  | _, _ => Stopped MissingDatasets
  end.

(** The frame with its anchor date parsed, and [df["month"]]. *)
Definition with_month (df : frame) : outcome (frame * list string) :=
  match col "admission_date" df with
  | Some v =>
      let df := set_col "admission_date" (to_datetime v) df in
      Shown (df, map (fun i => month_label (at_row (to_datetime v) i)) (index df))
  | None =>
      match col "death_date" df with
      | Some v =>
          let df := set_col "death_date" (to_datetime v) df in
          Shown (df, map (fun i => month_label (at_row (to_datetime v) i)) (index df))
      | None => Stopped MissingDateColumns
      end
  end.

(** The standardised [df["outcome"]], row by row. *)
Definition outcome_text (df : frame) : list string :=
  let clean x := PyStr.strip (PyStr.lower (astype_str x)) in
  match col "outcome" df with
  | Some v => map (fun i => clean (at_row v i)) (index df)
  | None =>
      match col "outcome_norm" df with
      | Some v => map (fun i => clean (at_row v i)) (index df)
      | None => map (fun _ => "unknown") (index df)
      end
  end.

(** [df["is_death"]], row by row. *)
Definition is_death (df : frame) : list bool :=
  let texts := outcome_text df in
  map (fun i =>
         PyStr.contains (nth i texts EmptyString) "dead"
         || match col "death_date" df with
            | Some dd => notna (at_row (to_datetime dd) i)
            | None => false
            end) (index df).

(** [sorted(df["month"].dropna().unique())]: the labels are texts, none
    is dropped. *)
Definition months_of (labels : list string) : list string := sorted (unique labels).

(** The death flags of [df[df["month"] == m]]. *)
Definition month_rows (labels : list string) (deaths : list bool) (m : string)
  : list bool :=
  mask_filter (map (fun l => String.eqb l m) labels) deaths.

(** The merged frame and its month labels. *)
Definition prepare (s : session) : outcome (frame * list string) :=
  df <- load s ;;
  with_month df.

(** The page down to the rate difference; [choice1] and [choice2] are the
    positions picked in the two select boxes. *)
Definition compare (s : session) (choice1 choice2 : nat) : outcome comparison :=
  dm <- prepare s ;;
  let df := fst dm in
  let labels := snd dm in
  let deaths := is_death df in
  let months := months_of labels in
  if (List.length months <? 2)%nat then Stopped NeedTwoMonths
  else
    let m1 := nth choice1 months EmptyString in
    let m2 := nth choice2 months EmptyString in
    let s1 := mortality_stats (month_rows labels deaths m1) in
    let s2 := mortality_stats (month_rows labels deaths m2) in
    Shown (mkComparison m1 m2 s1 s2 (mortality_rate s2 - mortality_rate s1)%Q).

End Comparison.

End Step3.

(** ** Step 4: diagnosis and age analysis *)

Module Step4.
Import Frame Page.

(** The order the age groups are reindexed in. *)
Definition bucket_order : list string :=
  ["<1 month"; "1–11 months"; "1–4 years"; "5–14 years"; "15+ years"; "Unknown"].

(** [age_group(days)]; comparing a text or a date with a number is a
    TypeError. *)
Definition age_group (days : cell) : outcome string :=
  match days with
  | NA => Shown "Unknown"
  | Int _ | Float _ =>
      match num days with
      | Some d =>
          Shown (if negb (Qle_bool 30 d) then "<1 month"
                 else if negb (Qle_bool 365 d) then "1–11 months"
                 else if negb (Qle_bool (inject_Z (5 * 365)) d) then "1–4 years"
                 else if negb (Qle_bool (inject_Z (15 * 365)) d) then "5–14 years"
                 else "15+ years")
      | None => Raised TypeError
      end
  | _ => Raised TypeError
  end.

Fixpoint traverse {A B : Type} (f : A -> outcome B) (l : list A) : outcome (list B) :=
  match l with
  | [] => Shown []
  | x :: r => y <- f x ;; ys <- traverse f r ;; Shown (y :: ys)
  end.

Definition count_of (x : string) (l : list string) : nat :=
  List.length (filter (String.eqb x) l).

(** Descending by count, a tie in the order met. *)
Fixpoint insert_count (p : string * nat) (l : list (string * nat))
  : list (string * nat) :=
  match l with
  | [] => [p]
  | q :: r => if (snd q <=? snd p)%nat then p :: l else q :: insert_count p r
  end.

(** [Series.value_counts()] *)
Definition value_counts (l : list string) : list (string * nat) :=
  fold_right insert_count [] (map (fun x => (x, count_of x l)) (unique l)).

Fixpoint lookup (b : string) (vc : list (string * nat)) : option nat :=
  match vc with
  | [] => None
  | (k, n) :: r => if String.eqb k b then Some n else lookup b r
  end.

(** [.reindex(order).dropna().reset_index()]: a label the counts do not
    have is NaN after the reindex, and dropped. *)
Definition reindex_dropna (order : list string) (vc : list (string * nat))
  : list (string * nat) :=
  flat_map (fun b => match lookup b vc with
                     | Some n => [(b, n)]
                     | None => []
                     end) order.

Fixpoint repeat_text (s : string) (n : nat) : string :=
  match n with
  | O => EmptyString
  | S k => (s ++ repeat_text s k)%string
  end.

(** [x * k] for the value of an age column: a number is multiplied, a text
    is repeated. *)
Definition times (k : Z) (x : cell) : outcome cell :=
  match x with
  | Int z => Shown (Int (z * k))
  | Float q => Shown (Float (Qred (q * inject_Z k)))
  | Str s => Shown (Str (repeat_text s (Z.to_nat k)))
  | _ => Raised TypeError
  end.

(** [row.get(c)] *)
Definition field (c : string) (df : frame) (i : nat) : cell :=
  match col c df with
  | Some v => at_row v i
  | None => NA
  end.

Section Ages.
Context {P : Pandas}.

Definition load (s : session) : outcome frame :=
  match df_previous s, df_current s with
  | Some prev, Some cur => Shown (concat prev cur)
  | _, Some cur => Shown cur
  | _, None => Stopped NoCleanData
  end.

(** The first of outcome_norm, outcome the frame has. *)
Definition detect_outcome (df : frame) : outcome string :=
  if has_col "outcome_norm" df then Shown "outcome_norm"
  else if has_col "outcome" df then Shown "outcome"
  else Stopped NoOutcomeColumn.

(** [df[outcome_col] = df[outcome_col].astype(str).str.lower()] *)
Definition lower_outcome (c : string) (df : frame) : frame :=
  set_col c (map (fun x => Str (PyStr.lower (astype_str x))) (col_or_na c df)) df.

(** The month column as text; [iloc[0]] of an empty column is an
    IndexError. *)
Definition month_as_text (df : frame) : outcome frame :=
  match col "month" df with
  | Some [] => Raised IndexError
  | Some (Period y m :: rest) =>
      Shown (set_col "month"
               (map (fun x => match x with
                              | NA => Str "NaT"
                              | _ => Str (astype_str x)
                              end) (Period y m :: rest)) df)
  | Some _ => Shown df
  | None => Shown (set_col "month" (broadcast (Str "Unknown") df) df)
  end.

(** [compute_age_days(row)] for the row at position [i]. *)
Definition compute_age_days (df : frame) (i : nat) : outcome cell :=
  if notna (field "age_days" df i) then Shown (field "age_days" df i)
  else if notna (field "age_months" df i) then times 30 (field "age_months" df i)
  else if notna (field "age_years" df i) then times 365 (field "age_years" df i)
  else Shown NA.

(** The frame the page works on: outcome lower-cased, month as text,
    [age_days] recomputed; with the label of the outcome column. *)
Definition prepare (s : session) : outcome (frame * string) :=
  df <- load s ;;
  c <- detect_outcome df ;;
  let df := lower_outcome c df in
  df <- month_as_text df ;;
  ages <- traverse (compute_age_days df) (index df) ;;
  Shown (set_col "age_days" ages df, c).

(** The rows of [deaths_df]: the positions whose outcome is [dead]. *)
Definition death_rows (df : frame) (c : string) : list nat :=
  filter (fun i => is_str "dead" (field c df i)) (index df).

(** The table [age_counts], or [None] when the page reports that there is
    no mortality record. *)
Definition age_counts (s : session) : outcome (option (list (string * nat))) :=
  p <- prepare s ;;
  let df := fst p in
  let c := snd p in
  match death_rows df c with
  | [] => Shown None
  | rows =>
      groups <- traverse (fun i => age_group (field "age_days" df i)) rows ;;
      Shown (Some (reindex_dropna bucket_order (value_counts groups)))
  end.

End Ages.

End Step4.

(** ** Scenarios of the specification *)

Module Scenarios.
Import Frame.

(** Three rows with outcomes DEAD, alive, deceased. *)
Definition outcome_rows : frame :=
  [("outcome", [Str "DEAD"; Str "alive"; Str "deceased"])].

(** What step 1 stores for an uploaded text. *)
Definition upload (text : string) : option frame :=
  match Plain.read_csv text with
  | Some raw => Step1.table (Step1.validate_and_normalize (P := Plain.pandas) raw)
  | None => None
  end.

(** The sample uploaded as the current month. *)
Definition sample_session : Page.session :=
  Page.mkSession (upload Sample.make_sample_csv_bytes) None.

(** One death in September 2025 whose patient identifier was left
    empty. *)
Definition unidentified_csv : string :=
  Plain.line ["patient_id"; "admission_date"; "outcome"] ++
  Plain.line [EmptyString; "2025-09-01"; "Dead"].

Definition unidentified_session : Page.session :=
  Page.mkSession (upload unidentified_csv) None.

(** Two months: two admissions in September 2025, one of them a death, as
    the previous month, and one admission in October 2025 as the current
    month. *)
Definition september_csv : string :=
  Plain.line ["patient_id"; "admission_date"; "outcome"] ++
  Plain.line ["1"; "2025-09-01"; "Dead"] ++
  Plain.line ["2"; "2025-09-15"; "Alive"].

Definition october_csv : string :=
  Plain.line ["patient_id"; "admission_date"; "outcome"] ++
  Plain.line ["3"; "2025-10-03"; "Alive"].

Definition two_month_session : Page.session :=
  Page.mkSession (upload october_csv) (upload september_csv).




Definition sample_twice : Page.session :=
  Page.mkSession (upload Sample.make_sample_csv_bytes)
                 (upload Sample.make_sample_csv_bytes).


Definition sample_ages : frame * string :=
  match Step4.prepare (P := Plain.pandas) sample_session with
  | Page.Shown p => p
  | _ => ([], EmptyString)
  end.

End Scenarios.

(** ** More of the pages

    The upload handlers of step 1, the change metrics of step 2 and the
    trend table of step 3, with the shapes of tables their properties are
    stated on. *)

Module Shape.
Import Frame.

(** Every column has [n] cells: a frame of [n] records. *)
Definition rectangular (n : nat) (df : frame) : Prop :=
  Forall (fun kv => List.length (snd kv) = n) df.

(** A frame of [n] records with at least one column. *)
Definition records (n : nat) (df : frame) : Prop :=
  rectangular n df /\ df <> [].

(** A cell of a datetime64 column. *)
Definition is_datetime (x : cell) : Prop :=
  x = NA \/ exists d, x = Timestamp d.

(** A text without a blank character. *)
Fixpoint no_blank (s : string) : Prop :=
  match s with
  | EmptyString => True
  | String c r => PyStr.is_space c = false /\ no_blank r
  end.

(** The columns normalisation always writes. *)
Definition derived_columns : list string :=
  ["sex_norm"; "outcome_norm"; "primary_diagnosis"; "month"].

(** A table that carries them. *)
Definition normalized (df : frame) : Prop :=
  forall c, In c derived_columns -> has_col c df = true.

(** A session whose stored tables carry them. *)
Definition stored_normalized (s : Page.session) : Prop :=
  (forall df, Page.df_current s = Some df -> normalized df) /\
  (forall df, Page.df_previous s = Some df -> normalized df).

End Shape.

Module Step1Page.
Import Frame Page.

Section Upload.
Context {P : Pandas}.

(** The handler of the current month's file.  [read] is the frame
    [pd.read_csv] gave, [None] when there is no file or the read raised
    (the page then only shows a message). *)
Definition store_current (auto_store : bool) (read : option frame) (s : session)
  : session :=
  match read with
  | None => s
  | Some raw =>
      let r := Step1.validate_and_normalize raw in
      match Step1.errors r with
      | [] => if auto_store then mkSession (Step1.table r) (df_previous s) else s
      | _ => s
      end
  end.

(** The handler of the previous month's file. *)
Definition store_previous (auto_store : bool) (read : option frame) (s : session)
  : session :=
  match read with
  | None => s
  | Some raw =>
      let r := Step1.validate_and_normalize raw in
      match Step1.errors r with
      | [] => if auto_store then mkSession (df_current s) (Step1.table r) else s
      | _ => s
      end
  end.

(** One run of the page: the current month's file, then the previous
    month's. *)
Definition run (auto_store : bool) (current previous : option frame) (s : session)
  : session :=
  store_previous auto_store previous (store_current auto_store current s).

End Upload.

End Step1Page.

Module Step2Metrics.
Import Frame Page Step2.

(** A difference of two rates: a number, or what float64 gives when one of
    them is inf or NaN. *)
Inductive change :=
| Change (q : Q)
| PlusInf
| MinusInf
| Undefined.

(** [(current_rate - prev_rate).round(2)] *)
Definition rate_change (current prev : float) : change :=
  match current, prev with
  | Fin a, Fin b => Change (round2 (a - b))
  | Inf, Fin _ => PlusInf
  | Fin _, Inf => MinusInf
  | _, _ => Undefined
  end.

(** The comparison metrics: the last row of the summary against the row
    before it; nothing when the summary has fewer than two rows. *)
Definition metrics (summary : list summary_row)
  : option (summary_row * summary_row * change) :=
  match rev summary with
  | current_month :: prev_month :: _ =>
      Some (current_month, prev_month,
            rate_change (mortality_rate current_month) (mortality_rate prev_month))
  | _ => None
  end.

End Step2Metrics.

Module Step3Trend.
Import Frame Page Step3.

Section Trend.
Context {P : Pandas}.

(** The table [trend_df] at the end of the page, which is reached only
    when the comparison was shown: one row per month text, the non-null
    patient identifiers counted and the death flags summed. *)
Definition trend_df (s : session) : outcome (list Step2.summary_row) :=
  dm <- prepare s ;;
  let df := fst dm in
  let labels := snd dm in
  let deaths := is_death df in
  if (List.length (months_of labels) <? 2)%nat then Stopped NeedTwoMonths
  else
    ids <- getitem "patient_id" df ;;
    Shown (map (Step2.group_row labels ids deaths df) (sorted (unique labels))).

End Trend.

End Step3Trend.

(** ** Small uploads the further properties are run on *)

Module Cases.
Import Frame Page.

(** Two records under padded headers: a date that does not parse, the
    diagnosis under dx, and a ward column no page knows. *)
Definition ward_upload : frame :=
  [("patient_id", [Int 1; Int 2]);
   (" admission_date", [Str "2025-09-01"; Str "soon"]);
   ("outcome ", [Str "Dead"; Str "Alive"]);
   ("dx", [Str "sepsis"; Str "asthma"]);
   ("ward", [Str "NBU"; Str "PW"])].

(** A header that passes the gate, and no record. *)
Definition header_only : frame := [("outcome", [])].

(** The sample as [pd.read_csv] gives it. *)
Definition sample_upload : frame :=
  match Plain.read_csv Sample.make_sample_csv_bytes with
  | Some raw => raw
  | None => []
  end.

(** What a page shows, [d] when it shows nothing. *)
Definition shown_or {A : Type} (d : A) (o : outcome A) : A :=
  match o with
  | Shown a => a
  | _ => d
  end.

(** The two-month session as the pages see it. *)
Definition two_month_frame : frame :=
  shown_or [] (Step2.prepare (P := Plain.pandas) Scenarios.two_month_session).

Definition two_month_months : list string :=
  shown_or [] (Step2.month_column two_month_frame).


Definition two_month_summary : list Step2.summary_row :=
  shown_or [] (Step2.summary (P := Plain.pandas) Scenarios.two_month_session).

Definition two_month_prepared : frame * list string :=
  shown_or ([], []) (Step3.prepare (P := Plain.pandas) Scenarios.two_month_session).

Definition september : Step2.summary_row := Step2.mkRow "2025-09" 2 1 (Fin 50).

Definition october : Step2.summary_row := Step2.mkRow "2025-10" 1 0 (Fin 0).

Definition september_against_october : Step3.comparison :=
  Step3.mkComparison "2025-09" "2025-10"
    (Step3.mkStats 2 1 50) (Step3.mkStats 1 0 0) (0 - 50)%Q.

End Cases.
(** * Properties *)

(** ** Sanity checks of the string helpers *)

Example strip_ex : PyStr.strip "  outcome	 " = "outcome".
Proof. reflexivity. Qed.

Example title_ex : PyStr.title "severe pneumonia-x1y" = "Severe Pneumonia-X1Y".
Proof. reflexivity. Qed.

Example contains_ex :
  PyStr.contains "declared dead" "dead" = true /\
  PyStr.contains "deceased" "dead" = false /\
  PyStr.startswith "deceased" "d" = true.
Proof. repeat split. Qed.

Example of_Z_ex : PyStr.of_Z 2025 = "2025" /\ PyStr.of_Z (-7) = "-7".
Proof. split; reflexivity. Qed.

Import Frame.

(** ** Rounding and the median *)

Example round_half_even_ex :
  map round_half_even [1 # 2; 3 # 2; 5 # 2; -(1 # 2); 149 # 100; 300 # 1]%Q
  = [0; 2; 2; 0; 1; 300].
Proof. reflexivity. Qed.

Example median_ex :
  median [3; 1; 2]%Q = 2%Q /\ median [4; 1; 3; 2]%Q = (5 # 2)%Q.
Proof. split; reflexivity. Qed.

(** A whole number is its own rounding. *)
Lemma round_half_even_whole (z : Z) : round_half_even (inject_Z z) = z.
Proof.
  unfold round_half_even. rewrite Qfloor_Z.
  assert (E : Qcompare (inject_Z z - inject_Z z) (1 # 2) = Lt).
  { apply (proj1 (Qlt_alt _ _)). unfold Qlt. simpl. lia. }
  now rewrite E.
Qed.

(** ** Frames: lookup and assignment *)

Section FrameFacts.

Lemma col_set_same (c : string) (v : column) (df : frame) :
  col c (set_col c v df) = Some v.
Proof.
  induction df as [|[k w] rest IH]; simpl.
  - now rewrite String.eqb_refl.
  - destruct (String.eqb k c) eqn:E; simpl; rewrite E; auto.
Qed.

Lemma col_set_other (c c' : string) (v : column) (df : frame) :
  c <> c' -> col c' (set_col c v df) = col c' df.
Proof.
  intros Hne. induction df as [|[k w] rest IH]; simpl.
  - destruct (String.eqb c c') eqn:E; auto.
    apply String.eqb_eq in E. contradiction.
  - destruct (String.eqb k c) eqn:E; simpl.
    + apply String.eqb_eq in E. subst k.
      destruct (String.eqb c c') eqn:E'; auto.
      apply String.eqb_eq in E'. contradiction.
    + now rewrite IH.
Qed.

Lemma has_col_In (c : string) (df : frame) :
  has_col c df = true <-> In c (columns df).
Proof.
  unfold has_col. induction df as [|[k w] rest IH]; simpl.
  - split; [discriminate | tauto].
  - destruct (String.eqb k c) eqn:E.
    + apply String.eqb_eq in E. split; auto.
    + apply String.eqb_neq in E. rewrite IH. split; [auto | intros [H|H]; congruence].
Qed.

Lemma has_col_set_other (c c' : string) (v : column) (df : frame) :
  c <> c' -> has_col c' (set_col c v df) = has_col c' df.
Proof. intros H. unfold has_col. now rewrite col_set_other. Qed.

Lemma has_col_set_same (c : string) (v : column) (df : frame) :
  has_col c (set_col c v df) = true.
Proof. unfold has_col. now rewrite col_set_same. Qed.

End FrameFacts.

(** ** Step 1: the minimal-column gate *)

Section Step1Facts.
Context {P : Pandas}.
Import Step1.





(** *** The stages of the normaliser, one label at a time *)

Lemma table_pipeline (raw df : frame) :
  table (validate_and_normalize raw) = Some df -> df = pipeline raw.
Proof.
  unfold validate_and_normalize, pipeline.
  destruct (negb _); simpl; [discriminate|].
  destruct (derive_age _) as [d1 a]; simpl.
  destruct (normalize_sex d1) as [d2 w2]; simpl.
  destruct (normalize_outcome d2) as [d3 w3]; simpl.
  destruct (normalize_diagnosis d3) as [d4 w4]; simpl.
  destruct (derive_month d4) as [[d5 w5] m]; simpl.
  congruence.
Qed.

Ltac other_label := rewrite col_set_other by (intro; congruence).

Lemma parse_dates_other (c : string) (df : frame) :
  ~ In c recognized_date_cols -> col c (parse_dates df) = col c df.
Proof.
  intros H. unfold parse_dates. simpl in *.
  assert (H1 : "admission_date" <> c) by tauto.
  assert (H2 : "discharge_date" <> c) by tauto.
  assert (H3 : "death_date" <> c) by tauto.
  repeat match goal with
         | |- context [match col ?k ?d with _ => _ end] =>
             destruct (col k d); [rewrite col_set_other by assumption|]
         end; reflexivity.
Qed.

Lemma derive_age_other (c : string) (df : frame) :
  c <> "age_days" -> col c (fst (derive_age df)) = col c df.
Proof.
  intros H. unfold derive_age.
  repeat match goal with
         | |- context [match col ?k ?d with _ => _ end] => destruct (col k d)
         | |- context [match dropna_num ?l with _ => _ end] => destruct (dropna_num l)
         end; simpl; try other_label; reflexivity.
Qed.

Lemma normalize_sex_other (c : string) (df : frame) :
  c <> "sex_norm" -> col c (fst (normalize_sex df)) = col c df.
Proof.
  intros H. unfold normalize_sex. destruct (col "sex" df); simpl; now other_label.
Qed.

Lemma normalize_outcome_other (c : string) (df : frame) :
  c <> "outcome_norm" -> col c (fst (normalize_outcome df)) = col c df.
Proof.
  intros H. unfold normalize_outcome. destruct (col "outcome" df); simpl; now other_label.
Qed.

Lemma normalize_diagnosis_other (c : string) (df : frame) :
  c <> "primary_diagnosis" -> col c (fst (normalize_diagnosis df)) = col c df.
Proof.
  intros H. unfold normalize_diagnosis.
  destruct (col "primary_diagnosis" df); [reflexivity|].
  destruct (col_exists_any df _); cbn [fst]; now other_label.
Qed.

Lemma derive_month_other (c : string) (df : frame) :
  c <> "month" -> col c (fst (fst (derive_month df))) = col c df.
Proof.
  intros H. unfold derive_month.
  destruct (usable_date "admission_date" df); simpl; [now other_label|].
  destruct (usable_date "death_date" df); simpl; now other_label.
Qed.

(** A label no later stage writes is read off the age stage. *)
Lemma pipeline_after_age (c : string) (raw : frame) :
  ~ In c ["sex_norm"; "outcome_norm"; "primary_diagnosis"; "month"] ->
  col c (pipeline raw) =
  col c (fst (derive_age (parse_dates (strip_columns raw)))).
Proof.
  intros H. simpl in H. unfold pipeline.
  rewrite derive_month_other by (intros ->; apply H; auto 6).
  rewrite normalize_diagnosis_other by (intros ->; apply H; auto 6).
  rewrite normalize_outcome_other by (intros ->; apply H; auto 6).
  rewrite normalize_sex_other by (intros ->; apply H; auto 6).
  reflexivity.
Qed.


(** A whole number of months m is m * 30 days, of years y, y * 365. *)
Lemma scaled_whole (k m : Z) : scaled k [Int m] = [Int (m * k)].
Proof.
  unfold scaled. simpl. rewrite <- inject_Z_mult. now rewrite round_half_even_whole.
Qed.



(** *** What the three derived fields hold *)

Lemma sex_code_values (x : cell) :
  sex_code x = Str "M" \/ sex_code x = Str "F" \/ sex_code x = Str "Unknown".
Proof.
  unfold sex_code.
  set (s := PyStr.upper (PyStr.strip (astype_str x))).
  destruct (String.eqb s "MALE"); [now left|].
  destruct (String.eqb s "FEMALE"); [now (right; left)|].
  simpl. destruct (String.eqb s "M") eqn:EM.
  - apply String.eqb_eq in EM. rewrite EM. now left.
  - destruct (String.eqb s "F") eqn:EF; simpl.
    + apply String.eqb_eq in EF. rewrite EF. now (right; left).
    + now (right; right).
Qed.

Lemma Forall_map_all {A B : Type} (Q : B -> Prop) (f : A -> B) (l : list A) :
  (forall x, Q (f x)) -> Forall Q (map f l).
Proof. intros H. induction l; simpl; constructor; auto. Qed.

Lemma Forall_repeat_all {A : Type} (Q : A -> Prop) (x : A) (n : nat) :
  Q x -> Forall Q (repeat x n).
Proof. intros H. induction n; simpl; constructor; auto. Qed.

(** C4, as the code has it.  Every record of a returned table has
    sex_norm equal to M, F or Unknown.  outcome_norm is a text on every
    record when the upload has an outcome column and is missing on every
    record when it has none.  primary_diagnosis is a text on every record
    when the upload has no such column (an alias column or UNKNOWN) and is
    the uploaded column, unchanged, when it has one. *)
Theorem derived_fields (raw df : frame) :
  table (validate_and_normalize raw) = Some df ->
  (exists v, col "sex_norm" df = Some v /\
             Forall (fun x => x = Str "M" \/ x = Str "F" \/ x = Str "Unknown") v) /\
  (exists v, col "outcome_norm" df = Some v /\
             match col "outcome" (strip_columns raw) with
             | Some _ => Forall (fun x => exists s, x = Str s) v
             | None => Forall (fun x => x = NA) v
             end) /\
  match col "primary_diagnosis" (strip_columns raw) with
  | Some d => col "primary_diagnosis" df = Some d
  | None => exists v, col "primary_diagnosis" df = Some v /\
                      Forall (fun x => exists s, x = Str s) v
  end.
Proof.
  intros T. apply table_pipeline in T. subst df. unfold pipeline.
  set (d0 := parse_dates (strip_columns raw)).
  set (d1 := fst (derive_age d0)).
  set (d2 := fst (normalize_sex d1)).
  set (d3 := fst (normalize_outcome d2)).
  set (d4 := fst (normalize_diagnosis d3)).
  assert (Keep : forall c, ~ In c recognized_date_cols -> c <> "age_days" ->
                           c <> "sex_norm" -> c <> "outcome_norm" ->
                           col c d3 = col c (strip_columns raw)).
  { intros c H0 H1 H2 H3. unfold d3, d2, d1, d0.
    rewrite normalize_outcome_other, normalize_sex_other, derive_age_other,
      parse_dates_other; auto. }
  repeat split.
  - rewrite derive_month_other by discriminate. fold d4. unfold d4.
    rewrite normalize_diagnosis_other by discriminate. unfold d3.
    rewrite normalize_outcome_other by discriminate. unfold d2, normalize_sex.
    destruct (col "sex" d1); cbn [fst]; rewrite col_set_same; eexists;
      (split; [reflexivity|]).
    + apply Forall_map_all. apply sex_code_values.
    + apply Forall_repeat_all. auto.
  - rewrite derive_month_other by discriminate. fold d4. unfold d4.
    rewrite normalize_diagnosis_other by discriminate. unfold d3, normalize_outcome.
    assert (E : col "outcome" d2 = col "outcome" (strip_columns raw)).
    { unfold d2, d1, d0.
      rewrite normalize_sex_other, derive_age_other, parse_dates_other;
        simpl; intuition discriminate. }
    rewrite E.
    destruct (col "outcome" (strip_columns raw)); cbn [fst]; rewrite col_set_same;
      eexists; (split; [reflexivity|]).
    + apply Forall_map_all. intros x. unfold outcome_norm_of. eauto.
    + apply Forall_repeat_all. reflexivity.
  - rewrite derive_month_other by discriminate. fold d4. unfold d4, normalize_diagnosis.
    rewrite (Keep "primary_diagnosis") by (simpl; intuition discriminate).
    destruct (col "primary_diagnosis" (strip_columns raw)) as [d|] eqn:Ed.
    + cbn [fst]. rewrite (Keep "primary_diagnosis") by (simpl; intuition discriminate).
      exact Ed.
    + destruct (col_exists_any d3 _); cbn [fst]; rewrite col_set_same; eexists;
        (split; [reflexivity|]).
      * apply Forall_map_all. eauto.
      * apply Forall_repeat_all. eauto.
Qed.

(** C2, as the code has it.  The outcomes DEAD, alive, deceased are
    normalised to Dead, Alive, Dead: deceased begins with the letter d and
    so is taken for Dead.  A text that holds neither word and begins with
    neither letter, such as unknown, is title-cased and passed through. *)
Theorem outcome_scenario :
  result_col "outcome_norm" (validate_and_normalize Scenarios.outcome_rows)
  = Some [Str "Dead"; Str "Alive"; Str "Dead"] /\
  outcome_norm_of (Str "unknown") = Str "Unknown".
Proof. split; reflexivity. Qed.

(** A text outside the two patterns is title-cased. *)
Lemma outcome_code_passthrough (x : string) :
  PyStr.contains x "dead" = false -> PyStr.startswith x "d" = false ->
  PyStr.contains x "alive" = false -> PyStr.startswith x "a" = false ->
  outcome_code x = PyStr.title x.
Proof. intros A B C D. unfold outcome_code. now rewrite A, B, C, D. Qed.

End Step1Facts.

(** *** Concrete instances *)

Section Step1Concrete.
Import Step1.
#[local] Existing Instance Plain.pandas.



Lemma derived_fields_witness :
  exists v, col "outcome_norm" (pipeline [("admission_date", [Str "2025-09-01"])])
            = Some v /\ Forall (fun x => x = NA) v.
Proof.
  assert (T : table (validate_and_normalize [("admission_date", [Str "2025-09-01"])])
              = Some (pipeline [("admission_date", [Str "2025-09-01"])]))
    by (vm_compute; reflexivity).
  exact (proj1 (proj2 (derived_fields _ _ T))).
Defined.

(** The claim of C4 fails on a table that has an admission date and no
    outcome column: the one record's outcome_norm is missing. *)
Lemma outcome_norm_missing :
  result_col "outcome_norm"
             (validate_and_normalize [("admission_date", [Str "2025-09-01"])])
  = Some [NA] /\
  ~ Forall (fun x => isna x = false) [NA].
Proof.
  split; [vm_compute; reflexivity|].
  intros H. inversion H. discriminate.
Qed.

(** The claim of C2 fails: the third outcome is not Deceased. *)
Lemma deceased_is_dead :
  result_col "outcome_norm" (validate_and_normalize Scenarios.outcome_rows)
  <> Some [Str "Dead"; Str "Alive"; Str "Deceased"].
Proof. vm_compute. discriminate. Qed.

(** C9. The sample table written to CSV, read back and normalised gives
    no error and two records, one Dead and one Alive. *)
Theorem sample_round_trip :
  exists raw norm,
    Plain.read_csv Sample.make_sample_csv_bytes = Some raw /\
    errors (validate_and_normalize raw) = [] /\
    result_col "outcome_norm" (validate_and_normalize raw) = Some norm /\
    List.length norm = 2%nat /\
    List.length (filter (is_str "Dead") norm) = 1%nat /\
    List.length (filter (is_str "Alive") norm) = 1%nat.
Proof.
  eexists. eexists.
  split; [vm_compute; reflexivity|].
  split; [vm_compute; reflexivity|].
  split; [vm_compute; reflexivity|].
  repeat split.
Qed.

End Step1Concrete.

(** ** Step 4: age groups *)

Section AgeGroups.
Import Page Step4.

Lemma Qle_bool_inject (a b : Z) :
  Qle_bool (inject_Z a) (inject_Z b) = (a <=? b)%Z.
Proof. unfold Qle_bool. simpl. now rewrite !Z.mul_1_r. Qed.

(** The bucket of a whole number of days, as the specification lists the
    ranges. *)
Lemma age_group_days (n : Z) (x : cell) :
  x = Int n \/ x = Float (inject_Z n) ->
  age_group x =
  Shown (if (n <=? 29)%Z then "<1 month"
         else if (n <=? 364)%Z then "1–11 months"
         else if (n <=? 1824)%Z then "1–4 years"
         else if (n <=? 5474)%Z then "5–14 years"
         else "15+ years").
Proof.
  intros [-> | ->]; unfold age_group, num; cbv beta iota;
    change 30%Q with (inject_Z 30); change 365%Q with (inject_Z 365);
    rewrite !Qle_bool_inject;
    repeat match goal with
           | |- context [(?a <=? ?b)%Z] => destruct (Z.leb_spec a b)
           end; simpl; try reflexivity; lia.
Qed.

Lemma Qle_bool_false (a b : Q) : Qle_bool a b = false -> (b < a)%Q.
Proof.
  intros H. apply Qnot_le_lt. intros X. apply Qle_bool_iff in X. congruence.
Qed.

Ltac by_thresholds :=
  repeat match goal with
         | |- context [Qle_bool ?a ?b] =>
             let E := fresh "E" in
             destruct (Qle_bool a b) eqn:E;
             [apply Qle_bool_iff in E | apply Qle_bool_false in E]
         end;
  cbn [negb]; change (inject_Z (5 * 365)) with 1825%Q in *;
  change (inject_Z (15 * 365)) with 5475%Q in *.

(** C5. Age-group classification answers on every age: a missing age is
    Unknown, and an age of q days, q at least 0, has exactly one of the six
    labels: below 30 days (0 to 29) it is <1 month, from 30 and below 365
    (30 to 364) 1-11 months, from 365 and below 1825 (365 to 1824) 1-4
    years, from 1825 and below 5475 (1825 to 5474) 5-14 years, from 5475 on
    15+ years.  The six labels are distinct; 30, 365, 1825 and 5475 open
    the next bucket. *)
Theorem age_group_partition (x : cell) (q : Q) :
  num x = Some q ->
  (0 <= q)%Q ->
  age_group NA = Shown "Unknown" /\
  (exists b, In b bucket_order /\ age_group x = Shown b) /\
  ((q < 30)%Q -> age_group x = Shown "<1 month") /\
  ((30 <= q)%Q -> (q < 365)%Q -> age_group x = Shown "1–11 months") /\
  ((365 <= q)%Q -> (q < 1825)%Q -> age_group x = Shown "1–4 years") /\
  ((1825 <= q)%Q -> (q < 5475)%Q -> age_group x = Shown "5–14 years") /\
  ((5475 <= q)%Q -> age_group x = Shown "15+ years") /\
  age_group (Int 29) = Shown "<1 month" /\
  age_group (Int 30) = Shown "1–11 months" /\
  age_group (Int 364) = Shown "1–11 months" /\
  age_group (Int 365) = Shown "1–4 years" /\
  age_group (Int 1824) = Shown "1–4 years" /\
  age_group (Int 1825) = Shown "5–14 years" /\
  age_group (Int 5474) = Shown "5–14 years" /\
  age_group (Int 5475) = Shown "15+ years" /\
  NoDup bucket_order.
Proof.
  intros Hx Hq.
  split; [reflexivity|].
  assert (E : age_group x =
              Shown (if negb (Qle_bool 30 q) then "<1 month"
                     else if negb (Qle_bool 365 q) then "1–11 months"
                     else if negb (Qle_bool (inject_Z (5 * 365)) q) then "1–4 years"
                     else if negb (Qle_bool (inject_Z (15 * 365)) q) then "5–14 years"
                     else "15+ years")).
  { destruct x; simpl in Hx; try discriminate; injection Hx as <-; reflexivity. }
  rewrite E. clear E Hx.
  split.
  { by_thresholds; eexists; (split; [|reflexivity]); simpl; auto 10. }
  split. { intros H. by_thresholds; try reflexivity; exfalso; lra. }
  split. { intros H H'. by_thresholds; try reflexivity; exfalso; lra. }
  split. { intros H H'. by_thresholds; try reflexivity; exfalso; lra. }
  split. { intros H H'. by_thresholds; try reflexivity; exfalso; lra. }
  split. { intros H. by_thresholds; try reflexivity; exfalso; lra. }
  repeat (split; [reflexivity|]).
  unfold bucket_order.
  repeat (constructor; [simpl; intuition discriminate|]). constructor.
Qed.

Lemma age_group_partition_witness :
  age_group (Float (59 # 2)) = Shown "<1 month".
Proof.
  destruct (age_group_partition (Float (59 # 2)) (59 # 2) eq_refl)
    as (_ & _ & H & _).
  - unfold Qle. simpl. lia.
  - apply H. unfold Qlt. simpl. lia.
Defined.

End AgeGroups.

(** ** Step 4: deaths by age group *)

Section ValueCounts.
Import Page Step4.

Lemma In_unique (x : string) (l : list string) : In x (unique l) <-> In x l.
Proof.
  induction l as [|a l IH]; simpl; [tauto|].
  rewrite filter_In, IH.
  destruct (String.eqb x a) eqn:E.
  - apply String.eqb_eq in E. subst. tauto.
  - apply String.eqb_neq in E. simpl.
    split; [intros [H|[H _]]; auto | intros [H|H]; [congruence | auto]].
Qed.

Lemma NoDup_unique (l : list string) : NoDup (unique l).
Proof.
  induction l as [|a l IH]; simpl; constructor.
  - rewrite filter_In. intros [_ H]. now rewrite String.eqb_refl in H.
  - now apply NoDup_filter.
Qed.

Lemma keys_insert_count (p : string * nat) (l : list (string * nat)) (k : string) :
  In k (map fst (insert_count p l)) <-> k = fst p \/ In k (map fst l).
Proof.
  induction l as [|q r IH]; simpl.
  - intuition.
  - destruct (snd q <=? snd p)%nat; simpl; [intuition|].
    rewrite IH. intuition.
Qed.

Lemma lookup_insert_count (p : string * nat) (l : list (string * nat)) (b : string) :
  ~ In (fst p) (map fst l) ->
  lookup b (insert_count p l) =
  if String.eqb (fst p) b then Some (snd p) else lookup b l.
Proof.
  destruct p as [k n]. simpl. induction l as [|[k' n'] r IH]; simpl; intros H.
  - reflexivity.
  - destruct (n' <=? n)%nat; simpl; [reflexivity|].
    rewrite IH by tauto.
    destruct (String.eqb k' b) eqn:E1; destruct (String.eqb k b) eqn:E2; auto.
    apply String.eqb_eq in E1, E2. subst. tauto.
Qed.

Lemma keys_sorted (ps : list (string * nat)) (k : string) :
  In k (map fst (fold_right insert_count [] ps)) <-> In k (map fst ps).
Proof.
  induction ps as [|p ps IH]; simpl; [tauto|].
  rewrite keys_insert_count, IH. intuition.
Qed.

Lemma lookup_sorted (ps : list (string * nat)) (b : string) :
  NoDup (map fst ps) ->
  lookup b (fold_right insert_count [] ps) = lookup b ps.
Proof.
  induction ps as [|[k n] ps IH]; simpl; intros H; [reflexivity|].
  inversion H; subst.
  rewrite lookup_insert_count by (simpl; now rewrite keys_sorted).
  simpl. now rewrite IH.
Qed.

Lemma lookup_tabulate (f : string -> nat) (keys : list string) (b : string) :
  lookup b (map (fun x => (x, f x)) keys) =
  if existsb (String.eqb b) keys then Some (f b) else None.
Proof.
  induction keys as [|k keys IH]; simpl; [reflexivity|].
  rewrite (String.eqb_sym b k).
  destruct (String.eqb k b) eqn:E; simpl; auto.
  apply String.eqb_eq in E. now subst.
Qed.

Lemma count_of_zero (b : string) (l : list string) :
  existsb (String.eqb b) l = (0 <? count_of b l)%nat.
Proof.
  unfold count_of. induction l as [|a l IH]; simpl; [reflexivity|].
  destruct (String.eqb b a); simpl; auto.
Qed.

(** What a label looks up in the counts: its number of occurrences, when
    it occurs. *)
Lemma lookup_value_counts (l : list string) (b : string) :
  lookup b (value_counts l) =
  if (0 <? count_of b l)%nat then Some (count_of b l) else None.
Proof.
  unfold value_counts.
  rewrite lookup_sorted.
  - rewrite lookup_tabulate. rewrite <- count_of_zero.
    assert (E : existsb (String.eqb b) (unique l) = existsb (String.eqb b) l).
    { apply eq_true_iff_eq. rewrite !existsb_exists.
      split; intros [x [H1 H2]]; exists x; split; auto; now apply In_unique. }
    now rewrite E.
  - rewrite map_map. simpl. rewrite map_id. apply NoDup_unique.
Qed.

(** Reindexing the counts and dropping the holes lists, in the order
    given, the labels that occur, each with its count. *)
Lemma reindex_dropna_spec (order l : list string) :
  reindex_dropna order (value_counts l) =
  filter (fun p => (0 <? snd p)%nat) (map (fun b => (b, count_of b l)) order).
Proof.
  unfold reindex_dropna. induction order as [|b order IH]; simpl; [reflexivity|].
  rewrite lookup_value_counts, IH.
  destruct (0 <? count_of b l)%nat; reflexivity.
Qed.

Lemma traverse_shown {A B : Type} (f : A -> outcome B) (l : list A) (ys : list B) :
  traverse f l = Shown ys -> Forall2 (fun x y => f x = Shown y) l ys.
Proof.
  revert ys. induction l as [|x l IH]; simpl; intros ys H.
  - inversion H. constructor.
  - destruct (f x) as [y| |] eqn:E; simpl in H; try discriminate.
    destruct (traverse f l) as [r| |]; simpl in H; try discriminate.
    inversion H. constructor; auto.
Qed.

Lemma count_of_groups {A : Type} (f : A -> outcome string) (l : list A)
  (gs : list string) (b : string) :
  Forall2 (fun x g => f x = Shown g) l gs ->
  count_of b gs =
  List.length (filter (fun x => match f x with
                                | Shown g => String.eqb b g
                                | _ => false
                                end) l).
Proof.
  unfold count_of. induction 1 as [|x g l gs H _ IH]; simpl; [reflexivity|].
  rewrite H. destruct (String.eqb b g); simpl; auto.
Qed.

Lemma filter_filter {A : Type} (f g : A -> bool) (l : list A) :
  filter f (filter g l) = filter (fun x => g x && f x) l.
Proof.
  induction l as [|a l IH]; simpl; [reflexivity|].
  destruct (g a); simpl; [destruct (f a); simpl; congruence | auto].
Qed.

End ValueCounts.

Section DeathsByAge.
Context {P : Pandas}.
Import Page Step4.

(** C6, as the code has it.  The table of deaths by age group counts the
    records whose lower-cased outcome is dead, and lists, in the order <1
    month, 1-11 months, 1-4 years, 5-14 years, 15+ years, Unknown, the
    buckets that have at least one death, each with its count; a bucket
    without a death is dropped from the table. *)
Theorem age_counts_listed (s : session) (df : frame) (c : string)
  (rows : list (string * nat)) :
  prepare s = Shown (df, c) ->
  age_counts s = Shown (Some rows) ->
  rows =
  filter (fun p => (0 <? snd p)%nat)
    (map (fun b =>
            (b, List.length
                  (filter (fun i =>
                             is_str "dead" (field c df i)
                             && match age_group (field "age_days" df i) with
                                | Shown g => String.eqb b g
                                | _ => false
                                end) (index df))))
         bucket_order).
Proof.
  intros Hp Ha. unfold age_counts in Ha. rewrite Hp in Ha.
  cbv beta iota delta [bind fst snd] in Ha.
  destruct (death_rows df c) as [|i r] eqn:Er; [discriminate|].
  destruct (traverse _ (i :: r)) as [gs| |] eqn:Et; try discriminate.
  assert (E : rows = reindex_dropna bucket_order (value_counts gs)) by congruence.
  rewrite E, reindex_dropna_spec. clear E Ha.
  apply traverse_shown in Et.
  f_equal. apply map_ext. intros b. f_equal.
  rewrite (count_of_groups _ _ _ b Et), <- Er.
  unfold death_rows. now rewrite filter_filter.
Qed.

End DeathsByAge.

(** ** Steps 2 and 3: months, deaths and rates *)

Section Lists.
Import Page.

Lemma In_insert_str (x a : string) (l : list string) :
  In x (insert_str a l) <-> x = a \/ In x l.
Proof.
  induction l as [|b l IH]; simpl; [intuition|].
  destruct (PyStr.leb a b); simpl; [intuition|]. rewrite IH. intuition.
Qed.

Lemma In_sorted (x : string) (l : list string) : In x (sorted l) <-> In x l.
Proof.
  induction l as [|a l IH]; simpl; [tauto|].
  rewrite In_insert_str, IH. intuition.
Qed.

Lemma length_insert_str (a : string) (l : list string) :
  List.length (insert_str a l) = S (List.length l).
Proof.
  induction l as [|b l IH]; simpl; [reflexivity|].
  destruct (PyStr.leb a b); simpl; auto.
Qed.

Lemma length_sorted (l : list string) : List.length (sorted l) = List.length l.
Proof.
  induction l as [|a l IH]; simpl; [reflexivity|].
  now rewrite length_insert_str, IH.
Qed.

(** A column with one value has one distinct value. *)
Lemma unique_all_equal (l : list string) :
  (forall a b, In a l -> In b l -> a = b) -> (List.length (unique l) < 2)%nat.
Proof.
  destruct l as [|a l]; simpl; intros H; [lia|].
  assert (E' : forall u, (forall x, In x u -> In x l) ->
                         filter (fun y => negb (String.eqb y a)) u = []).
  { induction u as [|x u IH]; simpl; intros Hu; [reflexivity|].
    assert (x = a) as -> by (apply H; auto).
    rewrite String.eqb_refl. simpl. auto. }
  rewrite E' by (intros x Hx; now apply In_unique). simpl. lia.
Qed.

Lemma NoDup_two {A : Type} (l : list A) (a b : A) :
  NoDup l -> In a l -> In b l -> a <> b -> (2 <= List.length l)%nat.
Proof.
  intros N Ha Hb Hab.
  destruct l as [|x [|y l]]; simpl in *; try lia; intuition congruence.
Qed.

(** A column with two values has at least two distinct values. *)
Lemma unique_two (l : list string) (a b : string) :
  In a l -> In b l -> a <> b -> (2 <= List.length (unique l))%nat.
Proof.
  intros Ha Hb Hab.
  apply (NoDup_two _ a b); auto using NoDup_unique; now apply In_unique.
Qed.

Lemma mask_filter_length {A B : Type} (f : A -> bool) (l : list A) (v : list B) :
  List.length l = List.length v ->
  List.length (mask_filter (map f l) v) = List.length (filter f l).
Proof.
  revert v. induction l as [|a l IH]; intros [|b v] E; simpl in *; try lia.
  destruct (f a); simpl; rewrite IH; lia.
Qed.

Lemma nth_error_map_seq {A : Type} (f : nat -> A) (n i : nat) :
  (i < n)%nat -> nth_error (map f (seq 0 n)) i = Some (f i).
Proof.
  intros H. rewrite nth_error_map, nth_error_seq.
  destruct (Nat.ltb_spec i n); [reflexivity | lia].
Qed.


End Lists.

Section Months.
Context {P : Pandas}.
Import Page Step3.

Lemma compare_never_raises (s : session) (choice1 choice2 : nat) (e : error) :
  compare s choice1 choice2 <> Raised e.
Proof.
  unfold compare, prepare, load.
  destruct (df_current s) as [cur|]; [|discriminate].
  destruct (df_previous s) as [prev|]; [|discriminate].
  cbv beta iota delta [bind]. unfold with_month.
  destruct (col "admission_date" (concat prev cur)).
  - cbv beta iota delta [fst snd]. destruct (_ <? 2)%nat; discriminate.
  - destruct (col "death_date" (concat prev cur)); [|discriminate].
    cbv beta iota delta [fst snd]. destruct (_ <? 2)%nat; discriminate.
Qed.

Lemma prepare_labels_length (s : session) (df : frame) (labels : list string) :
  prepare s = Shown (df, labels) -> List.length labels = nrows df.
Proof.
  unfold prepare, load.
  destruct (df_current s) as [cur|]; [|discriminate].
  destruct (df_previous s) as [prev|]; [|discriminate].
  cbv beta iota delta [bind]. unfold with_month.
  destruct (col "admission_date" (concat prev cur)).
  - intros H. injection H as <- <-. unfold index. now rewrite length_map, length_seq.
  - destruct (col "death_date" (concat prev cur)); [|discriminate].
    intros H. injection H as <- <-. unfold index. now rewrite length_map, length_seq.
Qed.

Lemma is_death_length (df : frame) : List.length (is_death df) = nrows df.
Proof. unfold is_death, index. now rewrite length_map, length_seq. Qed.

(** The months offered for comparison are the month labels of the
    records. *)
Lemma months_of_labels (labels : list string) (m : string) :
  In m (months_of labels) <-> In m labels.
Proof. unfold months_of. now rewrite In_sorted, In_unique. Qed.

(** The rate [mortality_stats] reports: deaths over admissions times 100,
    rounded to 2 decimals, and 0 when there is no admission. *)
Lemma mortality_stats_rate (sub_df : list bool) :
  mortality_rate (mortality_stats sub_df) =
  match total_adm (mortality_stats sub_df) with
  | O => 0%Q
  | _ => round2 (inject_Z (Z.of_nat (total_dead (mortality_stats sub_df)))
                 / inject_Z (Z.of_nat (total_adm (mortality_stats sub_df))) * 100)
  end.
Proof. unfold mortality_stats. simpl. now destruct (List.length sub_df). Qed.

(** The comparison page, on the month texts of the records.  It never
    dies on an exception.  When the records carry fewer than two distinct
    month texts the page stops on the notice that two months are needed,
    before any rate is computed.  When they carry two, it shows, for the
    two months picked, the admissions, the deaths and the rate of each,
    and the difference of the second rate and the first. *)
Lemma month_comparison (s : session) (choice1 choice2 : nat) :
  (forall e, compare s choice1 choice2 <> Raised e) /\
  forall df labels,
  prepare s = Shown (df, labels) ->
  ((forall a b, In a labels -> In b labels -> a = b) ->
   compare s choice1 choice2 = Stopped NeedTwoMonths) /\
  ((exists a b, In a labels /\ In b labels /\ a <> b) ->
   exists cmp,
     compare s choice1 choice2 = Shown cmp /\
     month1 cmp = nth choice1 (months_of labels) EmptyString /\
     month2 cmp = nth choice2 (months_of labels) EmptyString /\
     stats1 cmp = mortality_stats (month_rows labels (is_death df) (month1 cmp)) /\
     stats2 cmp = mortality_stats (month_rows labels (is_death df) (month2 cmp)) /\
     total_adm (stats1 cmp)
     = List.length (filter (fun l => String.eqb l (month1 cmp)) labels) /\
     total_adm (stats2 cmp)
     = List.length (filter (fun l => String.eqb l (month2 cmp)) labels) /\
     ((choice1 < List.length (months_of labels))%nat -> In (month1 cmp) labels) /\
     ((choice2 < List.length (months_of labels))%nat -> In (month2 cmp) labels) /\
     diff cmp = (mortality_rate (stats2 cmp) - mortality_rate (stats1 cmp))%Q).
Proof.
  split; [intros e; apply compare_never_raises|].
  intros df labels Hp.
  unfold compare. rewrite Hp. cbv beta iota delta [bind fst snd].
  assert (L : List.length labels = List.length (is_death df)).
  { rewrite is_death_length. eapply prepare_labels_length; eauto. }
  split.
  - intros Hall.
    assert (N : (List.length (months_of labels) < 2)%nat).
    { unfold months_of. rewrite length_sorted. now apply unique_all_equal. }
    destruct (Nat.ltb_spec (List.length (months_of labels)) 2); [reflexivity | lia].
  - intros (a & b & Ha & Hb & Hab).
    assert (N : (2 <= List.length (months_of labels))%nat).
    { unfold months_of. rewrite length_sorted. now apply (unique_two _ a b). }
    destruct (Nat.ltb_spec (List.length (months_of labels)) 2); [lia|].
    eexists. split; [reflexivity|]. cbn [month1 month2 stats1 stats2 diff].
    repeat split;
      try (intros Hc; apply months_of_labels; now apply nth_In);
      unfold mortality_stats, month_rows; cbn [total_adm];
      now apply mask_filter_length.
Qed.

End Months.

Section Deaths.
Context {P : Pandas}.
Import Page.



End Deaths.

(** ** The pages on concrete uploads *)

Section PagesConcrete.
Import Page.
#[local] Existing Instance Plain.pandas.

(** With at least one admission counted, the summary's rate is deaths over
    admissions times 100, rounded to 2 decimals. *)
Lemma rate_column_counted (deaths admissions : nat) :
  (0 < admissions)%nat ->
  rate_column deaths admissions =
  Fin (round2 (inject_Z (Z.of_nat deaths) / inject_Z (Z.of_nat admissions) * 100)).
Proof. destruct admissions; [lia | reflexivity]. Qed.

Example rate_three_in_ten :
  rate_column 3 10 = Fin 30 /\
  Step3.mortality_rate (Step3.mortality_stats (repeat true 3 ++ repeat false 7)) = 30%Q /\
  Step3.mortality_rate (Step3.mortality_stats []) = 0%Q.
Proof. repeat split. Qed.

(** C3, where the code departs from it.  A month whose only record has no
    patient identifier counts zero admissions on the summary page, and its
    rate there is one death over zero: infinite, not 0.  The comparison
    page's [mortality_stats] does return 0 without admissions. *)
Theorem summary_rate_without_admissions :
  Step2.summary Scenarios.unidentified_session
  = Shown [Step2.mkRow "2025-09" 0 1 Inf] /\
  Step3.mortality_rate (Step3.mortality_stats []) = 0%Q.
Proof. split; vm_compute; reflexivity. Qed.

(** The claim of C6 fails on the sample: one bucket is listed, not six. *)
Lemma empty_buckets_dropped :
  Step4.age_counts Scenarios.sample_session = Shown (Some [("<1 month", 1%nat)]) /\
  map fst [("<1 month", 1%nat)] <> Step4.bucket_order.
Proof. split; [vm_compute; reflexivity | discriminate]. Qed.

Lemma age_counts_listed_witness :
  [("<1 month", 1%nat)] =
  filter (fun p => (0 <? snd p)%nat)
    (map (fun b =>
            (b, List.length
                  (filter (fun i =>
                             is_str "dead"
                               (Step4.field (snd Scenarios.sample_ages)
                                            (fst Scenarios.sample_ages) i)
                             && match Step4.age_group
                                        (Step4.field "age_days"
                                           (fst Scenarios.sample_ages) i) with
                                | Shown g => String.eqb b g
                                | _ => false
                                end) (index (fst Scenarios.sample_ages)))))
         Step4.bucket_order).
Proof.
  apply (age_counts_listed Scenarios.sample_session
           (fst Scenarios.sample_ages) (snd Scenarios.sample_ages)).
  - vm_compute. reflexivity.
  - vm_compute. reflexivity.
Defined.

(** Two dated months: the comparison is shown. *)
Example two_months_compared :
  Step3.compare Scenarios.two_month_session 0 1
  = Shown (Step3.mkComparison "2025-09" "2025-10"
             (Step3.mkStats 2 1 50) (Step3.mkStats 1 0 0) (0 - 50)%Q) /\
  Step3.compare Scenarios.sample_twice 0 1 = Stopped NeedTwoMonths.
Proof. split; vm_compute; reflexivity. Qed.



(** The sample's second record is Alive and carries a death date: the
    summary counts two deaths in two admissions. *)
Example sample_summary :
  Step2.summary Scenarios.sample_session
  = Shown [Step2.mkRow "2025-09" 2 2 (Fin 100)] /\
  option_map (fun df => col "outcome" df) (Scenarios.upload Sample.make_sample_csv_bytes)
  = Some (Some [Str "Dead"; Str "Alive"]).
Proof. split; vm_compute; reflexivity. Qed.

End PagesConcrete.

(** * Further properties of the pages *)

(** ** Step 1: what normalisation keeps and what it writes *)

Section Step1Shape.
Context {P : Pandas}.
Import Step1 Shape.

(** The result past the gate, field by field. *)
Lemma normalize_unfold (raw : frame) :
  existsb (fun c => has_col c (strip_columns raw)) minimal_candidates = true ->
  let d0 := parse_dates (strip_columns raw) in
  let d1 := fst (derive_age d0) in
  let d2 := fst (normalize_sex d1) in
  let d3 := fst (normalize_outcome d2) in
  let d4 := fst (normalize_diagnosis d3) in
  validate_and_normalize raw =
  mkResult (Some (pipeline raw)) []
    ((match snd (derive_age d0) with
      | None => ["No recognizable age columns found (age_days, age_months, age_years)"]
      | Some _ => []
      end)
     ++ snd (normalize_sex d1) ++ snd (normalize_outcome d2)
     ++ snd (normalize_diagnosis d3) ++ snd (fst (derive_month d4)))%list
    (isna_sum (pipeline raw))
    (snd (derive_month d4)).
Proof.
  intros G. unfold validate_and_normalize, pipeline. rewrite G. cbn [negb].
  destruct (derive_age _) as [d1 a]; cbn [fst snd].
  destruct (normalize_sex d1) as [d2 w2]; cbn [fst snd].
  destruct (normalize_outcome d2) as [d3 w3]; cbn [fst snd].
  destruct (normalize_diagnosis d3) as [d4 w4]; cbn [fst snd].
  destruct (derive_month d4) as [[d5 w5] m]; cbn [fst snd].
  reflexivity.
Qed.

Lemma table_gate (raw df : frame) :
  table (validate_and_normalize raw) = Some df ->
  existsb (fun c => has_col c (strip_columns raw)) minimal_candidates = true.
Proof.
  unfold validate_and_normalize.
  destruct (existsb _ _); [reflexivity | discriminate].
Qed.

Lemma rectangular_set (n : nat) (c : string) (v : column) (df : frame) :
  rectangular n df -> List.length v = n -> rectangular n (set_col c v df).
Proof.
  unfold rectangular. intros H L.
  induction df as [|[k w] rest IH]; simpl.
  - constructor; auto.
  - inversion H; subst. destruct (String.eqb k c); constructor; auto.
Qed.

Lemma rectangular_col (n : nat) (c : string) (v : column) (df : frame) :
  rectangular n df -> col c df = Some v -> List.length v = n.
Proof.
  unfold rectangular. induction df as [|[k w] rest IH]; simpl; intros H E.
  - discriminate.
  - inversion H; subst. destruct (String.eqb k c); [now inversion E | auto].
Qed.

Lemma rectangular_nrows (n : nat) (df : frame) :
  rectangular n df -> df <> [] -> nrows df = n.
Proof.
  destruct df as [|[k w] rest]; [congruence|].
  intros H _. inversion H; subst. reflexivity.
Qed.

Lemma set_col_nonempty (c : string) (v : column) (df : frame) :
  set_col c v df <> [].
Proof. destruct df as [|[k w] rest]; simpl; [|destruct (String.eqb k c)]; discriminate. Qed.

Lemma to_datetime_length (v : column) : List.length (to_datetime v) = List.length v.
Proof. unfold to_datetime. apply length_map. Qed.

Lemma records_set (n : nat) (c : string) (v : column) (df : frame) :
  records n df -> List.length v = n -> records n (set_col c v df).
Proof. intros [H _] L. split; [now apply rectangular_set | apply set_col_nonempty]. Qed.

Lemma records_col (n : nat) (c : string) (v : column) (df : frame) :
  records n df -> col c df = Some v -> List.length v = n.
Proof. intros [H _]. now apply rectangular_col. Qed.

Lemma records_broadcast (n : nat) (x : cell) (df : frame) :
  records n df -> List.length (broadcast x df) = n.
Proof.
  intros [H N]. unfold broadcast. rewrite repeat_length. now apply rectangular_nrows.
Qed.

Lemma records_date_step (n : nat) (c : string) (df : frame) :
  records n df ->
  records n (match col c df with
             | Some v => set_col c (to_datetime v) df
             | None => df
             end).
Proof.
  intros H. destruct (col c df) as [v|] eqn:E; [|exact H].
  apply records_set; [exact H|].
  rewrite to_datetime_length. now apply (records_col n c v df).
Qed.

Lemma records_parse_dates (n : nat) (df : frame) :
  records n df -> records n (parse_dates df).
Proof.
  intros H. unfold parse_dates. simpl. now repeat apply records_date_step.
Qed.

Lemma scaled_length (k : Z) (v : column) : List.length (scaled k v) = List.length v.
Proof. unfold scaled. apply length_map. Qed.

Lemma records_derive_age (n : nat) (df : frame) :
  records n df -> records n (fst (derive_age df)).
Proof.
  intros H. unfold derive_age.
  destruct (col "age_days" df); [exact H|].
  destruct (col "age" df) as [age|] eqn:Ea.
  { destruct (dropna_num (map to_numeric age)); [exact H|].
    cbn [fst]. apply records_set; [exact H|].
    pose proof (records_col n _ _ _ H Ea) as L.
    destruct (Qle_bool _ 30); [now rewrite length_map|].
    destruct (negb _); now rewrite scaled_length. }
  destruct (col "age_months" df) as [m|] eqn:Em.
  { cbn [fst]. apply records_set; [exact H|].
    rewrite scaled_length. now apply (records_col n _ _ _ H Em). }
  destruct (col "age_years" df) as [y|] eqn:Ey; [|exact H].
  cbn [fst]. apply records_set; [exact H|].
  rewrite scaled_length. now apply (records_col n _ _ _ H Ey).
Qed.

Lemma records_normalize_sex (n : nat) (df : frame) :
  records n df -> records n (fst (normalize_sex df)).
Proof.
  intros H. unfold normalize_sex. destruct (col "sex" df) as [v|] eqn:E; cbn [fst];
    apply records_set; auto.
  - rewrite length_map. now apply (records_col n _ _ _ H E).
  - now apply records_broadcast.
Qed.

Lemma records_normalize_outcome (n : nat) (df : frame) :
  records n df -> records n (fst (normalize_outcome df)).
Proof.
  intros H. unfold normalize_outcome. destruct (col "outcome" df) as [v|] eqn:E; cbn [fst];
    apply records_set; auto.
  - rewrite length_map. now apply (records_col n _ _ _ H E).
  - now apply records_broadcast.
Qed.

Lemma col_exists_any_found (df : frame) (names : list string) (alt : string) :
  col_exists_any df names = Some alt -> In alt names /\ has_col alt df = true.
Proof.
  induction names as [|a names IH]; simpl; [discriminate|].
  destruct (has_col a df) eqn:E.
  - intros H. injection H as <-. auto.
  - intros H. destruct (IH H). auto.
Qed.

Lemma records_normalize_diagnosis (n : nat) (df : frame) :
  records n df -> records n (fst (normalize_diagnosis df)).
Proof.
  intros H. unfold normalize_diagnosis.
  destruct (col "primary_diagnosis" df); [exact H|].
  destruct (col_exists_any df _) as [alt|] eqn:E; cbn [fst]; apply records_set; auto.
  - rewrite length_map. apply col_exists_any_found in E. destruct E as [_ E].
    unfold has_col in E. unfold col_or_na.
    destruct (col alt df) as [v|] eqn:Ev; [|discriminate].
    now apply (records_col n _ _ _ H Ev).
  - now apply records_broadcast.
Qed.

Lemma usable_date_col (c : string) (df : frame) (v : column) :
  usable_date c df = Some v -> col c df = Some v.
Proof.
  unfold usable_date. destruct (col c df) as [w|]; [|discriminate].
  destruct (existsb notna w); [auto | discriminate].
Qed.

Lemma records_derive_month (n : nat) (df : frame) :
  records n df -> records n (fst (fst (derive_month df))).
Proof.
  intros H. unfold derive_month.
  destruct (usable_date "admission_date" df) as [v|] eqn:E.
  { cbn [fst]. apply records_set; [exact H|]. rewrite length_map.
    apply usable_date_col in E. now apply (records_col n _ _ _ H E). }
  destruct (usable_date "death_date" df) as [v|] eqn:E'; cbn [fst];
    apply records_set; auto.
  - rewrite length_map. apply usable_date_col in E'.
    now apply (records_col n _ _ _ H E').
  - now apply records_broadcast.
Qed.

Lemma rectangular_strip (n : nat) (raw : frame) :
  rectangular n raw -> rectangular n (strip_columns raw).
Proof.
  unfold rectangular, strip_columns. intros H.
  induction H; simpl; constructor; auto.
Qed.

(** Normalisation neither drops nor adds a record: when every column of
    the upload has [n] cells, so has every column of the returned table,
    the added ones included, and the table has [n] rows. *)
Theorem normalize_keeps_records (n : nat) (raw df : frame) :
  rectangular n raw ->
  table (validate_and_normalize raw) = Some df ->
  rectangular n df /\ nrows df = n.
Proof.
  intros R T.
  assert (N : strip_columns raw <> []).
  { apply table_gate in T. intros E. rewrite E in T. discriminate. }
  apply table_pipeline in T. subst df.
  assert (H : records n (pipeline raw)).
  { unfold pipeline.
    apply records_derive_month, records_normalize_diagnosis,
      records_normalize_outcome, records_normalize_sex, records_derive_age,
      records_parse_dates.
    split; [now apply rectangular_strip | exact N]. }
  destruct H as [H1 H2]. split; [exact H1 | now apply rectangular_nrows].
Qed.

End Step1Shape.

Section Step1Columns.
Context {P : Pandas}.
Import Step1 Shape.

(** Normalisation writes the three date columns, age_days, sex_norm,
    outcome_norm, primary_diagnosis and month; every other column of the
    upload comes back as it was, and no other column is added. *)
Theorem normalize_leaves_other_columns (raw df : frame) (c : string) :
  table (validate_and_normalize raw) = Some df ->
  ~ In c (recognized_date_cols ++
          ["age_days"; "sex_norm"; "outcome_norm"; "primary_diagnosis"; "month"])%list ->
  col c df = col c (strip_columns raw).
Proof.
  intros T H. apply table_pipeline in T. subst df. simpl in H.
  rewrite pipeline_after_age by (simpl; tauto).
  rewrite derive_age_other by (intros ->; tauto).
  apply parse_dates_other. simpl. tauto.
Qed.

Lemma date_step_same (c : string) (df : frame) :
  col c (match col c df with
         | Some v => set_col c (to_datetime v) df
         | None => df
         end) = option_map to_datetime (col c df).
Proof.
  destruct (col c df) as [v|] eqn:E; simpl; [apply col_set_same | exact E].
Qed.

Lemma date_step_other (c c' : string) (df : frame) :
  c' <> c ->
  col c (match col c' df with
         | Some v => set_col c' (to_datetime v) df
         | None => df
         end) = col c df.
Proof.
  intros H. destruct (col c' df); [now apply col_set_other | reflexivity].
Qed.

Lemma parse_dates_date (c : string) (df : frame) :
  In c recognized_date_cols ->
  col c (parse_dates df) = option_map to_datetime (col c df).
Proof.
  unfold parse_dates. simpl. intros [<-|[<-|[<-|[]]]].
  - rewrite !date_step_other by discriminate. apply date_step_same.
  - rewrite date_step_other by discriminate. rewrite date_step_same.
    now rewrite date_step_other by discriminate.
  - rewrite date_step_same. now rewrite !date_step_other by discriminate.
Qed.

Lemma pipeline_date (c : string) (raw : frame) :
  In c recognized_date_cols ->
  col c (pipeline raw) = option_map to_datetime (col c (strip_columns raw)).
Proof.
  intros H.
  assert (N : ~ In c ["sex_norm"; "outcome_norm"; "primary_diagnosis"; "month"]
              /\ c <> "age_days").
  { simpl in H. destruct H as [<-|[<-|[<-|[]]]]; simpl; intuition discriminate. }
  rewrite pipeline_after_age by tauto.
  rewrite derive_age_other by tauto.
  now apply parse_dates_date.
Qed.

Lemma to_datetime_cells (v : column) : Forall is_datetime (to_datetime v).
Proof.
  unfold to_datetime. apply Forall_map_all. intros x.
  destruct (parse_datetime v x); [right; eauto | now left].
Qed.

(** Lenient dates: a date column of the upload comes back parsed as a
    whole, each cell a date or missing, and a date column the upload does
    not have is not invented. *)
Theorem normalize_parses_dates (raw df : frame) (c : string) :
  table (validate_and_normalize raw) = Some df ->
  In c recognized_date_cols ->
  match col c (strip_columns raw) with
  | Some v => col c df = Some (to_datetime v) /\ Forall is_datetime (to_datetime v)
  | None => col c df = None
  end.
Proof.
  intros T H. apply table_pipeline in T. subst df.
  rewrite pipeline_date by exact H.
  destruct (col c (strip_columns raw)); simpl; [|reflexivity].
  split; [reflexivity | apply to_datetime_cells].
Qed.

(** The dates the month stage sees are the parsed dates of the upload. *)
Lemma month_stage_dates (c : string) (raw : frame) :
  In c recognized_date_cols ->
  col c (fst (normalize_diagnosis
           (fst (normalize_outcome
             (fst (normalize_sex
               (fst (derive_age (parse_dates (strip_columns raw)))))))))) =
  option_map to_datetime (col c (strip_columns raw)).
Proof.
  intros H.
  assert (N : c <> "primary_diagnosis" /\ c <> "outcome_norm" /\ c <> "sex_norm"
              /\ c <> "age_days").
  { simpl in H. destruct H as [<-|[<-|[<-|[]]]]; intuition discriminate. }
  rewrite normalize_diagnosis_other, normalize_outcome_other, normalize_sex_other,
    derive_age_other by tauto.
  now apply parse_dates_date.
Qed.

(** The month is anchored once for the whole table.  When some admission
    date parses, every record's month is the month of its own admission
    date (missing where that date is missing, whatever its death date);
    otherwise, when some death date parses, the month of its death date;
    otherwise the month is missing on every record.  [date_for_month]
    names the column used. *)
Theorem month_anchor (raw df : frame) :
  table (validate_and_normalize raw) = Some df ->
  let parsed c := option_map to_datetime (col c (strip_columns raw)) in
  let usable c := match parsed c with
                  | Some v => existsb notna v
                  | None => false
                  end in
  if usable "admission_date" then
    col "month" df = option_map (map to_period_M) (parsed "admission_date") /\
    date_for_month (validate_and_normalize raw) = Some "admission_date"
  else if usable "death_date" then
    col "month" df = option_map (map to_period_M) (parsed "death_date") /\
    date_for_month (validate_and_normalize raw) = Some "death_date"
  else
    (exists v, col "month" df = Some v /\ Forall (fun x => x = NA) v) /\
    date_for_month (validate_and_normalize raw) = None.
Proof.
  intros T parsed usable.
  pose proof (table_gate _ _ T) as G.
  rewrite (normalize_unfold raw G). cbn [date_for_month].
  apply table_pipeline in T. subst df. unfold pipeline.
  set (d4 := fst (normalize_diagnosis _)).
  assert (A : col "admission_date" d4 = parsed "admission_date").
  { apply month_stage_dates. simpl. auto. }
  assert (D : col "death_date" d4 = parsed "death_date").
  { apply month_stage_dates. simpl. auto. }
  unfold usable, derive_month, usable_date. rewrite A, D.
  destruct (parsed "admission_date") as [a|].
  - destruct (existsb notna a).
    + cbn [fst snd]. now rewrite col_set_same.
    + destruct (parsed "death_date") as [d|].
      * destruct (existsb notna d); cbn [fst snd]; rewrite col_set_same.
        -- auto.
        -- split; [|reflexivity]. eexists. split; [reflexivity|].
           apply Forall_repeat_all. reflexivity.
      * cbn [fst snd]. rewrite col_set_same. split; [|reflexivity].
        eexists. split; [reflexivity|]. apply Forall_repeat_all. reflexivity.
  - destruct (parsed "death_date") as [d|].
    + destruct (existsb notna d); cbn [fst snd]; rewrite col_set_same.
      * auto.
      * split; [|reflexivity]. eexists. split; [reflexivity|].
        apply Forall_repeat_all. reflexivity.
    + cbn [fst snd]. rewrite col_set_same. split; [|reflexivity].
      eexists. split; [reflexivity|]. apply Forall_repeat_all. reflexivity.
Qed.

End Step1Columns.

Section Step1Diagnosis.
Context {P : Pandas}.
Import Step1 Shape.

Lemma col_exists_any_ext (d d' : frame) (names : list string) :
  (forall n, In n names -> col n d = col n d') ->
  col_exists_any d names = col_exists_any d' names.
Proof.
  induction names as [|a names IH]; simpl; intros H; [reflexivity|].
  unfold has_col. rewrite (H a) by auto. rewrite IH by auto. reflexivity.
Qed.

(** What the diagnosis stage sees of a label it does not write is what the
    upload has. *)
Lemma diagnosis_stage_sees (c : string) (raw : frame) :
  ~ In c recognized_date_cols -> c <> "age_days" -> c <> "sex_norm" ->
  c <> "outcome_norm" ->
  col c (fst (normalize_outcome
           (fst (normalize_sex
             (fst (derive_age (parse_dates (strip_columns raw)))))))) =
  col c (strip_columns raw).
Proof.
  intros H0 H1 H2 H3.
  rewrite normalize_outcome_other, normalize_sex_other, derive_age_other,
    parse_dates_other; auto.
Qed.

Lemma normalize_diagnosis_alias (d : frame) (alt : string) (v : column) :
  col "primary_diagnosis" d = None ->
  col_exists_any d ["diagnosis"; "dx"; "primary_dx"] = Some alt ->
  col alt d = Some v ->
  normalize_diagnosis d =
  (set_col "primary_diagnosis" (map (fun x => Str (astype_str x)) v) d,
   ["Mapped diagnosis column '" ++ alt ++ "' to primary_diagnosis"]).
Proof.
  intros Hp Ha Hv. unfold normalize_diagnosis. rewrite Hp, Ha.
  unfold col_or_na. now rewrite Hv.
Qed.

Lemma normalize_diagnosis_unknown (d : frame) :
  col "primary_diagnosis" d = None ->
  col_exists_any d ["diagnosis"; "dx"; "primary_dx"] = None ->
  normalize_diagnosis d =
  (set_col "primary_diagnosis" (broadcast (Str "UNKNOWN") d) d,
   ["No primary_diagnosis found. Filled as UNKNOWN"]).
Proof. intros Hp Ha. unfold normalize_diagnosis. now rewrite Hp, Ha. Qed.

(** Diagnosis aliases.  When the upload has no primary_diagnosis column,
    the first of diagnosis, dx, primary_dx it has is copied as text into
    primary_diagnosis, the later aliases are ignored, and the warning names
    the alias used; with no alias either, every record gets UNKNOWN and the
    warning says so. *)
Theorem diagnosis_alias (raw df : frame) :
  table (validate_and_normalize raw) = Some df ->
  let src := strip_columns raw in
  col "primary_diagnosis" src = None ->
  let text v := Some (map (fun x => Str (astype_str x)) v) in
  match col "diagnosis" src, col "dx" src, col "primary_dx" src with
  | Some v, _, _ =>
      col "primary_diagnosis" df = text v /\
      In "Mapped diagnosis column 'diagnosis' to primary_diagnosis"
         (warnings (validate_and_normalize raw))
  | None, Some v, _ =>
      col "primary_diagnosis" df = text v /\
      In "Mapped diagnosis column 'dx' to primary_diagnosis"
         (warnings (validate_and_normalize raw))
  | None, None, Some v =>
      col "primary_diagnosis" df = text v /\
      In "Mapped diagnosis column 'primary_dx' to primary_diagnosis"
         (warnings (validate_and_normalize raw))
  | None, None, None =>
      (exists v, col "primary_diagnosis" df = Some v /\
                 Forall (fun x => x = Str "UNKNOWN") v) /\
      In "No primary_diagnosis found. Filled as UNKNOWN"
         (warnings (validate_and_normalize raw))
  end.
Proof.
  intros T src Hp text.
  pose proof (table_gate _ _ T) as G.
  rewrite (normalize_unfold raw G). cbn [warnings].
  apply table_pipeline in T. subst df. unfold pipeline.
  rewrite derive_month_other by discriminate.
  set (d3 := fst (normalize_outcome _)).
  assert (S : forall c, ~ In c recognized_date_cols -> c <> "age_days" ->
                        c <> "sex_norm" -> c <> "outcome_norm" ->
                        col c d3 = col c src).
  { intros. now apply diagnosis_stage_sees. }
  assert (Sp : col "primary_diagnosis" d3 = None).
  { rewrite S by (simpl; intuition discriminate). exact Hp. }
  assert (Sd : col "diagnosis" d3 = col "diagnosis" src)
    by (apply S; simpl; intuition discriminate).
  assert (Sx : col "dx" d3 = col "dx" src)
    by (apply S; simpl; intuition discriminate).
  assert (Sy : col "primary_dx" d3 = col "primary_dx" src)
    by (apply S; simpl; intuition discriminate).
  assert (A : col_exists_any d3 ["diagnosis"; "dx"; "primary_dx"] =
              match col "diagnosis" src, col "dx" src, col "primary_dx" src with
              | Some _, _, _ => Some "diagnosis"
              | None, Some _, _ => Some "dx"
              | None, None, Some _ => Some "primary_dx"
              | None, None, None => None
              end).
  { unfold col_exists_any, has_col. rewrite Sd, Sx, Sy.
    destruct (col "diagnosis" src); [reflexivity|].
    destruct (col "dx" src); [reflexivity|].
    destruct (col "primary_dx" src); reflexivity. }
  destruct (col "diagnosis" src) as [v|] eqn:Ed.
  { rewrite (normalize_diagnosis_alias d3 "diagnosis" v Sp A Sd). cbn [fst snd].
    rewrite col_set_same. split; [reflexivity|].
    apply in_or_app; right; apply in_or_app; right; apply in_or_app; right.
    now left. }
  destruct (col "dx" src) as [v|] eqn:Ex.
  { rewrite (normalize_diagnosis_alias d3 "dx" v Sp A Sx). cbn [fst snd].
    rewrite col_set_same. split; [reflexivity|].
    apply in_or_app; right; apply in_or_app; right; apply in_or_app; right.
    now left. }
  destruct (col "primary_dx" src) as [v|] eqn:Ey.
  { rewrite (normalize_diagnosis_alias d3 "primary_dx" v Sp A Sy). cbn [fst snd].
    rewrite col_set_same. split; [reflexivity|].
    apply in_or_app; right; apply in_or_app; right; apply in_or_app; right.
    now left. }
  rewrite (normalize_diagnosis_unknown d3 Sp A). cbn [fst snd].
  rewrite col_set_same. split.
  - eexists. split; [reflexivity|]. apply Forall_repeat_all. reflexivity.
  - apply in_or_app; right; apply in_or_app; right; apply in_or_app; right.
    now left.
Qed.

End Step1Diagnosis.

Section Step1Warnings.
Context {P : Pandas}.
Import Step1 Shape.

Lemma derive_age_found (d : frame) :
  snd (derive_age d) = None <-> col "age_days" (fst (derive_age d)) = None.
Proof.
  unfold derive_age.
  destruct (col "age_days" d) eqn:Ed; cbn [fst snd].
  { rewrite Ed. split; discriminate. }
  destruct (col "age" d) as [age|].
  { destruct (dropna_num (map to_numeric age)); cbn [fst snd].
    - rewrite Ed. tauto.
    - rewrite col_set_same. split; discriminate. }
  destruct (col "age_months" d); cbn [fst snd].
  { rewrite col_set_same. split; discriminate. }
  destruct (col "age_years" d); cbn [fst snd].
  { rewrite col_set_same. split; discriminate. }
  rewrite Ed. tauto.
Qed.

Lemma sex_warning (d : frame) :
  snd (normalize_sex d) = [] <-> col "sex" d <> None.
Proof.
  unfold normalize_sex. destruct (col "sex" d); cbn [snd];
    split; try discriminate; try congruence; auto.
Qed.

Lemma outcome_warning (d : frame) :
  snd (normalize_outcome d) = [] <-> col "outcome" d <> None.
Proof.
  unfold normalize_outcome. destruct (col "outcome" d); cbn [snd];
    split; try discriminate; try congruence; auto.
Qed.

Lemma diagnosis_warning (d : frame) :
  snd (normalize_diagnosis d) = [] <-> col "primary_diagnosis" d <> None.
Proof.
  unfold normalize_diagnosis. destruct (col "primary_diagnosis" d); cbn [snd].
  - split; [discriminate | reflexivity].
  - destruct (col_exists_any d _); cbn [snd]; split; try discriminate; congruence.
Qed.

Lemma month_warning (d : frame) :
  snd (fst (derive_month d)) = [] <-> snd (derive_month d) <> None.
Proof.
  unfold derive_month.
  destruct (usable_date "admission_date" d); cbn [fst snd].
  { split; [discriminate | reflexivity]. }
  destruct (usable_date "death_date" d); cbn [fst snd];
    split; try discriminate; try congruence; auto.
Qed.

(** A clean upload.  Normalisation issues no warning exactly when the
    returned table has an age_days column, the upload has the columns sex,
    outcome and primary_diagnosis, and a date column gave the month. *)
Theorem no_warning_iff (raw df : frame) :
  table (validate_and_normalize raw) = Some df ->
  warnings (validate_and_normalize raw) = [] <->
  col "age_days" df <> None /\
  col "sex" (strip_columns raw) <> None /\
  col "outcome" (strip_columns raw) <> None /\
  col "primary_diagnosis" (strip_columns raw) <> None /\
  date_for_month (validate_and_normalize raw) <> None.
Proof.
  intros T.
  pose proof (table_gate _ _ T) as G.
  rewrite (normalize_unfold raw G). cbn [warnings date_for_month].
  apply table_pipeline in T. subst df.
  rewrite pipeline_after_age by (simpl; intuition discriminate).
  set (d0 := parse_dates (strip_columns raw)).
  set (d1 := fst (derive_age d0)).
  set (d2 := fst (normalize_sex d1)).
  set (d3 := fst (normalize_outcome d2)).
  set (d4 := fst (normalize_diagnosis d3)).
  assert (Es : col "sex" d1 = col "sex" (strip_columns raw)).
  { unfold d1, d0. rewrite derive_age_other, parse_dates_other;
      simpl; intuition discriminate. }
  assert (Eo : col "outcome" d2 = col "outcome" (strip_columns raw)).
  { unfold d2, d1, d0.
    rewrite normalize_sex_other, derive_age_other, parse_dates_other;
      simpl; intuition discriminate. }
  assert (Ep : col "primary_diagnosis" d3
               = col "primary_diagnosis" (strip_columns raw)).
  { unfold d3, d2, d1, d0.
    rewrite normalize_outcome_other, normalize_sex_other, derive_age_other,
      parse_dates_other; simpl; intuition discriminate. }
  rewrite <- Es, <- Eo, <- Ep.
  rewrite <- sex_warning, <- outcome_warning, <- diagnosis_warning, <- month_warning.
  assert (Ea : (match snd (derive_age d0) with
                | None => ["No recognizable age columns found (age_days, age_months, age_years)"]
                | Some _ => []
                end = []) <-> col "age_days" d1 <> None).
  { unfold d1. pose proof (derive_age_found d0) as F.
    destruct (snd (derive_age d0)).
    - split; [intros _ E; apply F in E; discriminate | reflexivity].
    - split; [discriminate | intros N; exfalso; apply N; now apply F]. }
  rewrite <- Ea.
  split.
  - intros H.
    apply app_eq_nil in H. destruct H as [H1 H].
    apply app_eq_nil in H. destruct H as [H2 H].
    apply app_eq_nil in H. destruct H as [H3 H].
    apply app_eq_nil in H. destruct H as [H4 H5].
    auto.
  - intros (H1 & H2 & H3 & H4 & H5). now rewrite H1, H2, H3, H4, H5.
Qed.

End Step1Warnings.

(** ** Text normalisation: case and surrounding blanks *)

Section Text.
Import PyStr.

Ltac by_bits c := destruct c as [[] [] [] [] [] [] [] []]; reflexivity.


Lemma is_space_lower (c : ascii) : is_space (lower_char c) = is_space c.
Proof. by_bits c. Qed.

Lemma upper_lower_char (c : ascii) : upper_char (lower_char c) = upper_char c.
Proof. by_bits c. Qed.



Lemma smap_smap (f g : ascii -> ascii) (s : string) :
  smap f (smap g s) = smap (fun c => f (g c)) s.
Proof. induction s; simpl; congruence. Qed.

Lemma smap_ext (f g : ascii -> ascii) (s : string) :
  (forall c, f c = g c) -> smap f s = smap g s.
Proof. intros H. induction s; simpl; congruence. Qed.

Lemma upper_lower (s : string) : upper (lower s) = upper s.
Proof. unfold upper, lower. rewrite smap_smap. apply smap_ext, upper_lower_char. Qed.


Lemma lstrip_smap (f : ascii -> ascii) (s : string) :
  (forall c, is_space (f c) = is_space c) ->
  lstrip (smap f s) = smap f (lstrip s).
Proof.
  intros H. induction s as [|c s IH]; simpl; [reflexivity|].
  rewrite H. destruct (is_space c); auto.
Qed.

Lemma rstrip_smap (f : ascii -> ascii) (s : string) :
  (forall c, is_space (f c) = is_space c) ->
  rstrip (smap f s) = smap f (rstrip s).
Proof.
  intros H. induction s as [|c s IH]; simpl; [reflexivity|].
  rewrite IH, H. destruct (rstrip s); simpl; [destruct (is_space c)|]; reflexivity.
Qed.

Lemma strip_smap (f : ascii -> ascii) (s : string) :
  (forall c, is_space (f c) = is_space c) ->
  strip (smap f s) = smap f (strip s).
Proof. intros H. unfold strip. now rewrite lstrip_smap, rstrip_smap. Qed.

(** A text made of blanks only. *)
Lemma blank_lstrip (s : string) : strip s = EmptyString -> lstrip s = EmptyString.
Proof.
  unfold strip. induction s as [|c s IH]; simpl; [reflexivity|].
  destruct (is_space c) eqn:E; [exact IH|].
  simpl. destruct (rstrip s); [rewrite E|]; discriminate.
Qed.

Lemma blank_rstrip (s : string) : lstrip s = EmptyString -> rstrip s = EmptyString.
Proof.
  induction s as [|c s IH]; simpl; [reflexivity|].
  destruct (is_space c); [|discriminate]. intros H. now rewrite (IH H).
Qed.

Lemma lstrip_blank_app (pre s : string) :
  lstrip pre = EmptyString -> lstrip (pre ++ s) = lstrip s.
Proof.
  induction pre as [|c pre IH]; simpl; [reflexivity|].
  destruct (is_space c); [exact IH | discriminate].
Qed.

Lemma rstrip_app_blank (s post : string) :
  lstrip post = EmptyString -> rstrip (s ++ post) = rstrip s.
Proof.
  intros H. induction s as [|c s IH]; simpl.
  - now apply blank_rstrip.
  - now rewrite IH.
Qed.

Lemma strip_app_blank (s post : string) :
  lstrip post = EmptyString -> strip (s ++ post) = strip s.
Proof.
  intros H. unfold strip. induction s as [|c s IH]; simpl.
  - rewrite H. reflexivity.
  - destruct (is_space c); [exact IH|].
    change (String c (s ++ post)) with (String c s ++ post).
    now apply rstrip_app_blank.
Qed.

(** Blanks around a text do not count. *)
Lemma strip_padded (pre s post : string) :
  strip pre = EmptyString -> strip post = EmptyString ->
  strip (pre ++ s ++ post) = strip s.
Proof.
  intros Hpre Hpost. apply blank_lstrip in Hpre. apply blank_lstrip in Hpost.
  unfold strip at 1. rewrite lstrip_blank_app by exact Hpre.
  fold (strip (s ++ post)). now apply strip_app_blank.
Qed.

End Text.

Section Insensitive.
Context {P : Pandas}.
Import Step1.

(** Sex and outcome are read without regard to case or to blanks around
    the text: two cells whose texts differ only in the case of their
    letters and in surrounding blanks get the same sex_norm and the same
    outcome_norm. *)
Theorem codes_ignore_case_and_blanks (pre a post b : string) :
  PyStr.strip pre = EmptyString ->
  PyStr.strip post = EmptyString ->
  PyStr.lower a = PyStr.lower b ->
  sex_code (Str (pre ++ a ++ post)) = sex_code (Str b) /\
  outcome_norm_of (Str (pre ++ a ++ post)) = outcome_norm_of (Str b).
Proof.
  intros Hpre Hpost Hab.
  assert (L : PyStr.lower (PyStr.strip (pre ++ a ++ post))
              = PyStr.lower (PyStr.strip b)).
  { rewrite strip_padded by assumption.
    unfold PyStr.lower in *.
    rewrite <- !strip_smap by apply is_space_lower. now rewrite Hab. }
  split.
  - unfold sex_code. cbn [astype_str].
    rewrite <- (upper_lower (PyStr.strip (pre ++ a ++ post))).
    rewrite <- (upper_lower (PyStr.strip b)). now rewrite L.
  - unfold outcome_norm_of. cbn [astype_str]. now rewrite L.
Qed.

End Insensitive.

Section Stable.
Import PyStr.







End Stable.

Section OutcomeStable.
Context {P : Pandas}.
Import Step1.


End OutcomeStable.

(** ** Order of texts, sorting and grouping *)

Section TextOrder.
Import Page.

Lemma ascii_compare_lt_trans (a b c : ascii) :
  Ascii.compare a b = Lt -> Ascii.compare b c = Lt -> Ascii.compare a c = Lt.
Proof.
  unfold Ascii.compare. rewrite !N.compare_lt_iff. apply N.lt_trans.
Qed.

Lemma leb_trans (a b c : string) :
  PyStr.leb a b = true -> PyStr.leb b c = true -> PyStr.leb a c = true.
Proof.
  unfold PyStr.leb. revert b c.
  induction a as [|x a IH]; intros [|y b] [|z c]; simpl; try congruence; auto.
  destruct (Ascii.compare x y) eqn:Exy; try congruence.
  - apply Ascii.compare_eq_iff in Exy. subst y.
    destruct (Ascii.compare x z) eqn:Exz; try congruence. apply IH.
  - destruct (Ascii.compare y z) eqn:Eyz; try congruence.
    + apply Ascii.compare_eq_iff in Eyz. subst z. now rewrite Exy.
    + now rewrite (ascii_compare_lt_trans x y z Exy Eyz).
Qed.

Lemma leb_flip (a b : string) : PyStr.leb a b = false -> PyStr.leb b a = true.
Proof.
  unfold PyStr.leb. rewrite (String.compare_antisym b a).
  destruct (String.compare a b); simpl; congruence.
Qed.

Lemma insert_str_sorted (a : string) (l : list string) :
  StronglySorted (fun x y => PyStr.leb x y = true) l ->
  StronglySorted (fun x y => PyStr.leb x y = true) (insert_str a l).
Proof.
  induction 1 as [|b l S IH F]; simpl.
  - constructor; constructor.
  - destruct (PyStr.leb a b) eqn:E.
    + constructor; [now constructor|].
      constructor; [exact E|].
      eapply Forall_impl; [|exact F]. intros c Hc. now apply (leb_trans a b c).
    + constructor; [exact IH|].
      apply Forall_forall. intros c Hc. apply In_insert_str in Hc.
      destruct Hc as [->|Hc]; [now apply leb_flip|].
      rewrite Forall_forall in F. auto.
Qed.

(** [sorted] gives an ascending list. *)
Lemma sorted_ascending (l : list string) :
  StronglySorted (fun x y => PyStr.leb x y = true) (sorted l).
Proof.
  induction l as [|a l IH]; simpl; [constructor | now apply insert_str_sorted].
Qed.

Lemma insert_str_NoDup (a : string) (l : list string) :
  ~ In a l -> NoDup l -> NoDup (insert_str a l).
Proof.
  intros Ha N. induction N as [|b l Hb N IH]; simpl.
  - constructor; [tauto | constructor].
  - destruct (PyStr.leb a b).
    + constructor; [exact Ha | now constructor].
    + constructor.
      * rewrite In_insert_str. simpl in Ha. intuition.
      * apply IH. simpl in Ha. tauto.
Qed.

Lemma sorted_NoDup (l : list string) : NoDup l -> NoDup (sorted l).
Proof.
  induction 1 as [|a l Ha N IH]; simpl; [constructor|].
  apply insert_str_NoDup; [now rewrite In_sorted | exact IH].
Qed.

(** The distinct values of a column in ascending order: ascending, without
    repetition, and exactly the values of the column. *)
Lemma sorted_unique_spec (l : list string) :
  StronglySorted (fun x y => PyStr.leb x y = true) (sorted (unique l)) /\
  NoDup (sorted (unique l)) /\
  forall m, In m (sorted (unique l)) <-> In m l.
Proof.
  split; [apply sorted_ascending|].
  split; [apply sorted_NoDup, NoDup_unique|].
  intros m. now rewrite In_sorted, In_unique.
Qed.

Lemma StronglySorted_app_le {A : Type} (R : A -> A -> Prop) (l1 l2 : list A) :
  StronglySorted R (l1 ++ l2) ->
  forall x y, In x l1 -> In y l2 -> R x y.
Proof.
  induction l1 as [|a l1 IH]; simpl; intros S x y Hx Hy; [contradiction|].
  inversion S as [|? ? S' F]; subst.
  destruct Hx as [<-|Hx].
  - rewrite Forall_forall in F. apply F. apply in_or_app. now right.
  - now apply IH.
Qed.

(** *** Each record falls in one group *)

Lemma list_sum_add {A : Type} (f g : A -> nat) (l : list A) :
  list_sum (map (fun x => (f x + g x)%nat) l)
  = (list_sum (map f l) + list_sum (map g l))%nat.
Proof. induction l as [|a l IH]; simpl; [reflexivity | rewrite IH; lia]. Qed.

Lemma list_sum_zero {A : Type} (l : list A) :
  list_sum (map (fun _ => O) l) = O.
Proof. induction l; simpl; auto. Qed.

Lemma list_sum_indicator (x : string) (u : list string) :
  NoDup u -> In x u ->
  list_sum (map (fun m => if String.eqb x m then 1%nat else O) u) = 1%nat.
Proof.
  induction 1 as [|a u Ha N IH]; simpl; intros Hx; [contradiction|].
  destruct (String.eqb x a) eqn:E.
  - apply String.eqb_eq in E. subst a.
    assert (Z : list_sum (map (fun m => if String.eqb x m then 1%nat else O) u) = O).
    { clear IH N Hx. induction u as [|b u IH]; simpl; [reflexivity|].
      destruct (String.eqb x b) eqn:E'.
      - apply String.eqb_eq in E'. subst b. simpl in Ha. tauto.
      - apply IH. simpl in Ha. tauto. }
    now rewrite Z.
  - apply String.eqb_neq in E. destruct Hx as [Hx|Hx]; [congruence|]. now apply IH.
Qed.

(** Grouping the items of [l] by a key, over keys without repetition that
    cover every item: the sizes of the groups, restricted to the items
    that satisfy [p], add up to the number of items that satisfy [p]. *)
Lemma groups_partition {A : Type} (key : A -> string) (p : A -> bool)
  (u : list string) (l : list A) :
  NoDup u -> (forall x, In x l -> In (key x) u) ->
  list_sum (map (fun m => List.length
                            (filter (fun x => String.eqb (key x) m && p x) l)) u)
  = List.length (filter p l).
Proof.
  intros N. induction l as [|a l IH]; intros C.
  - simpl. apply list_sum_zero.
  - rewrite (map_ext _ (fun m => ((if String.eqb (key a) m && p a then 1 else 0)
                                   + List.length
                                       (filter (fun x => String.eqb (key x) m && p x) l))%nat)).
    2:{ intros m. simpl. destruct (String.eqb (key a) m && p a); reflexivity. }
    rewrite list_sum_add, IH by (intros x Hx; apply C; now right).
    simpl. destruct (p a); simpl.
    + rewrite (map_ext _ (fun m => if String.eqb (key a) m then 1%nat else O)).
      2:{ intros m. now rewrite andb_true_r. }
      rewrite list_sum_indicator; [reflexivity | exact N | apply C; now left].
    + rewrite (map_ext _ (fun _ => O)).
      2:{ intros m. now rewrite andb_false_r. }
      now rewrite list_sum_zero.
Qed.


End TextOrder.

(** ** Step 2: the summary table *)

Section Step2Summary.
Context {P : Pandas}.
Import Page Step2.

Lemma date_step_none (c c' : string) (df : frame) :
  col c (match col c' df with
         | Some v => set_col c' (to_datetime v) df
         | None => df
         end) = None <-> col c df = None.
Proof.
  destruct (String.eqb c' c) eqn:E.
  - apply String.eqb_eq in E. subst c'. rewrite date_step_same.
    destruct (col c df); simpl; split; congruence.
  - apply String.eqb_neq in E. now rewrite date_step_other.
Qed.

Lemma process_dates_none (c : string) (df : frame) :
  col c (process_dates df) = None <-> col c df = None.
Proof. unfold process_dates. simpl. now rewrite !date_step_none. Qed.

Lemma process_dates_other (c : string) (df : frame) :
  c <> "admission_date" -> c <> "death_date" ->
  col c (process_dates df) = col c df.
Proof.
  intros H1 H2. unfold process_dates. simpl.
  rewrite !date_step_other; auto.
Qed.

Lemma summary_cases (s : session) :
  match load s with
  | Shown d =>
      match col "admission_date" d, col "outcome" d, col "patient_id" d with
      | None, _, _ => summary s = Raised (KeyError "admission_date")
      | Some _, None, _ => summary s = Raised (KeyError "outcome")
      | Some _, Some _, None => summary s = Raised (KeyError "patient_id")
      | Some _, Some _, Some _ => exists rows, summary s = Shown rows
      end
  | _ => df_current s = None /\ summary s = Stopped UploadCurrentFirst
  end.
Proof.
  unfold summary, prepare.
  destruct (load s) as [d| |] eqn:L.
  2,3: (unfold load in L; destruct (df_current s);
        [destruct (df_previous s); discriminate|]; injection L as <- || idtac;
        try discriminate; split; reflexivity).
  cbv beta iota delta [bind].
  unfold month_column, is_death, getitem.
  pose proof (process_dates_none "admission_date" d) as Ha.
  pose proof (process_dates_other "outcome" d) as Ho.
  pose proof (process_dates_other "patient_id" d) as Hp.
  rewrite Ho, Hp by discriminate.
  destruct (col "admission_date" d) as [a|].
  - destruct (col "admission_date" (process_dates d)) as [a'|].
    + cbv beta iota delta [bind].
      destruct (col "outcome" d); [|reflexivity].
      cbv beta iota delta [bind].
      destruct (col "patient_id" d); [|reflexivity].
      eexists. reflexivity.
    + exfalso. assert (X : @None column = None) by reflexivity.
      apply Ha in X. discriminate.
  - destruct (col "admission_date" (process_dates d)) as [a'|]; [|reflexivity].
    exfalso. assert (X : @None column = None) by reflexivity.
    apply Ha in X. discriminate.
Qed.


(** What the summary page needs.  With no current month in the session
    the page stops on its notice.  Otherwise it needs the columns
    admission_date, outcome and patient_id in the merged table: it dies on
    a KeyError that names the first of them that is missing, in that
    order, and shows the summary when the three are there. *)
Theorem summary_needs_columns (s : session) :
  match load s with
  | Shown d =>
      match col "admission_date" d, col "outcome" d, col "patient_id" d with
      | None, _, _ => summary s = Raised (KeyError "admission_date")
      | Some _, None, _ => summary s = Raised (KeyError "outcome")
      | Some _, Some _, None => summary s = Raised (KeyError "patient_id")
      | Some _, Some _, Some _ => exists rows, summary s = Shown rows
      end
  | _ => df_current s = None /\ summary s = Stopped UploadCurrentFirst
  end.
Proof. apply summary_cases. Qed.

End Step2Summary.

Section Step2Rows.
Context {P : Pandas}.
Import Page Step2.

(** A column normalisation does not write, in the returned table. *)
Lemma pipeline_other (raw : frame) (c : string) :
  ~ In c (Step1.recognized_date_cols ++
          ["age_days"; "sex_norm"; "outcome_norm"; "primary_diagnosis"; "month"])%list ->
  col c (Step1.pipeline raw) = col c (Step1.strip_columns raw).
Proof.
  intros H. simpl in H.
  rewrite pipeline_after_age by (simpl; tauto).
  rewrite derive_age_other by (intros ->; tauto).
  apply parse_dates_other. simpl. tauto.
Qed.

(** Step 1 accepts what step 2 cannot read.  An upload that passes the
    gate is stored, but the summary of that upload alone is shown only
    when the upload has admission_date, outcome and patient_id; without
    admission_date the page dies on KeyError admission_date, else without
    outcome on KeyError outcome (the derived outcome_norm is not used),
    else without patient_id on KeyError patient_id. *)
Theorem summary_of_accepted_upload (raw df : frame) :
  Step1.table (Step1.validate_and_normalize raw) = Some df ->
  let src := Step1.strip_columns raw in
  let s := mkSession (Some df) None in
  match col "admission_date" src, col "outcome" src, col "patient_id" src with
  | None, _, _ => summary s = Raised (KeyError "admission_date")
  | Some _, None, _ => summary s = Raised (KeyError "outcome")
  | Some _, Some _, None => summary s = Raised (KeyError "patient_id")
  | Some _, Some _, Some _ => exists rows, summary s = Shown rows
  end.
Proof.
  intros T src s. apply table_pipeline in T. subst df.
  pose proof (summary_cases s) as H.
  unfold s in H at 1. unfold load in H. cbn [df_current df_previous] in H.
  rewrite (pipeline_date "admission_date" raw) in H by (simpl; auto).
  rewrite (pipeline_other raw "outcome") in H by (simpl; intuition discriminate).
  rewrite (pipeline_other raw "patient_id") in H by (simpl; intuition discriminate).
  fold src in H.
  destruct (col "admission_date" src); exact H.
Qed.

Lemma summary_rows (s : session) (df : frame) (rows : list summary_row) :
  prepare s = Shown df ->
  summary s = Shown rows ->
  exists months deaths ids,
    month_column df = Shown months /\
    is_death df = Shown deaths /\
    getitem "patient_id" df = Shown ids /\
    List.length months = nrows df /\
    List.length deaths = nrows df /\
    rows = map (group_row months ids deaths df) (sorted (unique months)).
Proof.
  intros Hp Hs. unfold summary in Hs. rewrite Hp in Hs.
  cbv beta iota delta [bind] in Hs.
  destruct (month_column df) as [months| |] eqn:Em; try discriminate.
  destruct (is_death df) as [deaths| |] eqn:Ed; try discriminate.
  destruct (getitem "patient_id" df) as [ids| |] eqn:Ei; try discriminate.
  exists months, deaths, ids. repeat split; try reflexivity.
  - unfold month_column in Em. destruct (getitem "admission_date" df); try discriminate.
    cbv beta iota delta [bind] in Em. injection Em as <-.
    unfold index. now rewrite length_map, length_seq.
  - unfold is_death in Ed. destruct (getitem "outcome" df); try discriminate.
    cbv beta iota delta [bind] in Ed. injection Ed as <-.
    unfold index. now rewrite length_map, length_seq.
  - congruence.
Qed.

Lemma group_row_month (months : list string) (ids : column) (deaths : list bool)
  (df : frame) (l : list string) :
  map month (map (group_row months ids deaths df) l) = l.
Proof. rewrite map_map. simpl. apply map_id. Qed.

(** One row per month.  The summary has exactly one row for each distinct
    month text of the records, in ascending order of the text. *)
Theorem summary_one_row_per_month (s : session) (df : frame)
  (months : list string) (rows : list summary_row) :
  prepare s = Shown df ->
  month_column df = Shown months ->
  summary s = Shown rows ->
  StronglySorted (fun a b => PyStr.leb a b = true) (map month rows) /\
  NoDup (map month rows) /\
  forall m, In m (map month rows) <-> In m months.
Proof.
  intros Hp Hm Hs.
  destruct (summary_rows s df rows Hp Hs) as (months' & deaths & ids & Em & _ & _ & _ & _ & ->).
  rewrite Hm in Em. injection Em as <-.
  rewrite group_row_month. apply sorted_unique_spec.
Qed.

Lemma nth_index_map {A : Type} (f : nat -> A) (d : A) (n i : nat) :
  In i (seq 0 n) -> nth i (map f (seq 0 n)) d = f i.
Proof.
  intros H. apply in_seq in H.
  apply nth_error_nth. apply nth_error_map_seq. lia.
Qed.


End Step2Rows.

Section Step2Change.
Context {P : Pandas}.
Import Page Step2 Step2Metrics.

Lemma metrics_last_two (rows : list summary_row) (cur prev : summary_row)
  (ch : change) :
  metrics rows = Some (cur, prev, ch) ->
  exists before, rows = (before ++ [prev; cur])%list /\
                 ch = rate_change (mortality_rate cur) (mortality_rate prev).
Proof.
  unfold metrics. destruct (rev rows) as [|c [|p rest]] eqn:E; try discriminate.
  intros H. injection H as <- <- <-.
  exists (rev rest). split; [|reflexivity].
  rewrite <- (rev_involutive rows), E. simpl. now rewrite <- app_assoc.
Qed.

Lemma StronglySorted_tail {A : Type} (R : A -> A -> Prop) (l1 l2 : list A) :
  StronglySorted R (l1 ++ l2) -> StronglySorted R l2.
Proof.
  induction l1 as [|a l1 IH]; simpl; intros S; [exact S|].
  inversion S; subst. auto.
Qed.

(** The change metrics.  They are shown exactly when the summary has at
    least two rows, and then compare the row of the greatest month text
    (shown as the current month) with the row of the second greatest:
    every other row of the summary has a month text below both. *)
Theorem metrics_compare_last_two (s : session) (df : frame)
  (rows : list summary_row) :
  prepare s = Shown df ->
  summary s = Shown rows ->
  (metrics rows = None <-> (List.length rows < 2)%nat) /\
  forall cur prev ch,
    metrics rows = Some (cur, prev, ch) ->
    In cur rows /\ In prev rows /\
    month prev <> month cur /\
    PyStr.leb (month prev) (month cur) = true /\
    ch = rate_change (mortality_rate cur) (mortality_rate prev) /\
    forall r, In r rows -> r <> cur -> r <> prev ->
              PyStr.leb (month r) (month prev) = true /\ month r <> month prev.
Proof.
  intros Hp Hs.
  split.
  { unfold metrics. rewrite <- (length_rev rows).
    destruct (rev rows) as [|c [|p rest]]; simpl; split; try discriminate;
      try reflexivity; lia. }
  intros cur prev ch Hm.
  destruct (metrics_last_two rows cur prev ch Hm) as (before & Er & Ec).
  destruct (summary_rows s df rows Hp Hs)
    as (months & deaths & ids & _ & _ & _ & _ & _ & Erows).
  pose proof (sorted_unique_spec months) as (S & N & _).
  rewrite <- (group_row_month months ids deaths df (sorted (unique months))) in S, N.
  rewrite <- Erows in S, N. clear Erows.
  rewrite Er in S, N |- *. rewrite map_app in S, N. simpl in S, N.
  split; [apply in_or_app; right; simpl; auto|].
  split; [apply in_or_app; right; simpl; auto|].
  assert (Spc : PyStr.leb (month prev) (month cur) = true /\ month prev <> month cur).
  { apply StronglySorted_tail in S.
    apply NoDup_remove_2 in N.
    inversion S as [|? ? _ F]; subst. inversion F; subst.
    split; [assumption|].
    intros E. apply N. apply in_or_app. right. rewrite E. now left. }
  destruct Spc as [Spc Npc].
  split; [exact Npc|]. split; [exact Spc|]. split; [exact Ec|].
  intros r Hr Hrc Hrp.
  apply in_app_or in Hr. destruct Hr as [Hr|[<-|[<-|[]]]]; try congruence.
  split.
  - apply (StronglySorted_app_le _ _ _ S (month r) (month prev)).
    + now apply in_map.
    + now left.
  - intros E. apply NoDup_remove_2 in N. apply N.
    apply in_or_app. left. rewrite <- E. now apply in_map.
Qed.

End Step2Change.

(** ** Step 3: the comparison and the trend *)

Section Rates.
Import Page Step3.

Lemma round_half_even_between (a b : Z) (q : Q) :
  (inject_Z a <= q)%Q -> (q <= inject_Z b)%Q ->
  (a <= round_half_even q <= b)%Z.
Proof.
  intros Ha Hb. unfold round_half_even.
  pose proof (Qfloor_le q) as Fl.
  pose proof (Qlt_floor q) as Fu.
  assert (La : (a <= Qfloor q)%Z).
  { apply Z.lt_succ_r. rewrite <- Z.add_1_r. rewrite Zlt_Qlt.
    eapply Qle_lt_trans; eauto. }
  assert (Lb : (Qfloor q <= b)%Z).
  { rewrite Zle_Qle. eapply Qle_trans; eauto. }
  destruct (Qcompare (q - inject_Z (Qfloor q)) (1 # 2)) eqn:E.
  - apply Qeq_alt in E.
    destruct (Z.even (Qfloor q)); [lia|].
    assert (Lt : (Qfloor q < b)%Z).
    { rewrite Zlt_Qlt. eapply Qlt_le_trans; [|exact Hb]. lra. }
    lia.
  - lia.
  - apply Qgt_alt in E.
    assert (Lt : (Qfloor q < b)%Z).
    { rewrite Zlt_Qlt. eapply Qlt_le_trans; [|exact Hb]. lra. }
    lia.
Qed.

Lemma count_true_le (l : list bool) : (count_true l <= List.length l)%nat.
Proof. unfold count_true. apply filter_length_le. Qed.

Lemma round2_percent (d a : nat) :
  (d <= a)%nat -> (0 < a)%nat ->
  (0 <= round2 (inject_Z (Z.of_nat d) / inject_Z (Z.of_nat a) * 100) <= 100)%Q.
Proof.
  intros Hd Ha. unfold round2. rewrite Qred_correct.
  set (x := (inject_Z (Z.of_nat d) / inject_Z (Z.of_nat a))%Q).
  assert (Pa : (0 < inject_Z (Z.of_nat a))%Q).
  { change 0%Q with (inject_Z 0). rewrite <- Zlt_Qlt. lia. }
  assert (X0 : (0 <= x)%Q).
  { unfold x. apply Qle_shift_div_l; [exact Pa|].
    rewrite Qmult_0_l. change 0%Q with (inject_Z 0). rewrite <- Zle_Qle. lia. }
  assert (X1 : (x <= 1)%Q).
  { unfold x. apply Qle_shift_div_r; [exact Pa|].
    rewrite Qmult_1_l. rewrite <- Zle_Qle. lia. }
  clearbody x.
  destruct (round_half_even_between 0 10000 (x * 100 * 100)) as [R0 R1].
  - change (inject_Z 0) with 0%Q. lra.
  - change (inject_Z 10000) with 10000%Q. lra.
  - rewrite Zle_Qle in R0, R1.
    change (inject_Z 0) with 0%Q in R0. change (inject_Z 10000) with 10000%Q in R1.
    set (r := inject_Z (round_half_even (x * 100 * 100))) in *. clearbody r.
    change (r / 100)%Q with (r * (1 # 100))%Q.
    split; lra.
Qed.

(** The rate [mortality_stats] reports lies between 0 and 100, and the
    deaths never exceed the admissions. *)
Lemma mortality_stats_bounds (sub_df : list bool) :
  (total_dead (mortality_stats sub_df) <= total_adm (mortality_stats sub_df))%nat /\
  (0 <= mortality_rate (mortality_stats sub_df) <= 100)%Q.
Proof.
  unfold mortality_stats. cbn [total_dead total_adm mortality_rate].
  split; [apply count_true_le|].
  destruct (Nat.ltb_spec 0 (List.length sub_df)).
  - apply round2_percent; [apply count_true_le | assumption].
  - split; lra.
Qed.

End Rates.

Section Step3Bounds.
Context {P : Pandas}.
Import Page Step3.

Lemma compare_shown (s : session) (choice1 choice2 : nat) (cmp : comparison) :
  compare s choice1 choice2 = Shown cmp ->
  exists df labels,
    prepare s = Shown (df, labels) /\
    (2 <= List.length (months_of labels))%nat /\
    month1 cmp = nth choice1 (months_of labels) EmptyString /\
    month2 cmp = nth choice2 (months_of labels) EmptyString /\
    stats1 cmp = mortality_stats (month_rows labels (is_death df) (month1 cmp)) /\
    stats2 cmp = mortality_stats (month_rows labels (is_death df) (month2 cmp)) /\
    diff cmp = (mortality_rate (stats2 cmp) - mortality_rate (stats1 cmp))%Q.
Proof.
  unfold compare. destruct (prepare s) as [[df labels]| |]; try discriminate.
  cbv beta iota delta [bind fst snd].
  destruct (Nat.ltb_spec (List.length (months_of labels)) 2) as [L|L];
    [discriminate|].
  intros E. injection E as <-. exists df, labels. cbn. repeat split; auto.
Qed.

(** Whatever is compared, the comparison shows rates between 0 and 100,
    at most as many deaths as admissions in each month, and a difference
    between -100 and 100. *)
Theorem comparison_bounds (s : session) (choice1 choice2 : nat) (cmp : comparison) :
  compare s choice1 choice2 = Shown cmp ->
  (total_dead (stats1 cmp) <= total_adm (stats1 cmp))%nat /\
  (total_dead (stats2 cmp) <= total_adm (stats2 cmp))%nat /\
  (0 <= mortality_rate (stats1 cmp) <= 100)%Q /\
  (0 <= mortality_rate (stats2 cmp) <= 100)%Q /\
  (-(100) <= diff cmp <= 100)%Q.
Proof.
  intros H. apply compare_shown in H.
  destruct H as (df & labels & _ & _ & _ & _ & E1 & E2 & Ed).
  rewrite Ed, E1, E2.
  destruct (mortality_stats_bounds (month_rows labels (is_death df) (month1 cmp)))
    as [A1 [B1 C1]].
  destruct (mortality_stats_bounds (month_rows labels (is_death df) (month2 cmp)))
    as [A2 [B2 C2]].
  repeat split; auto; lra.
Qed.

End Step3Bounds.

Section Step3Groups.
Context {P : Pandas}.
Import Page Step3.

Lemma filter_map_comm {A B : Type} (f : A -> B) (p : B -> bool) (l : list A) :
  filter p (map f l) = map f (filter (fun x => p (f x)) l).
Proof.
  induction l as [|a l IH]; simpl; [reflexivity|].
  destruct (p (f a)); simpl; congruence.
Qed.

(** Selecting rows by a mask over the labels is selecting the positions
    whose label passes. *)
Lemma mask_filter_index {B : Type} (f : string -> bool) (labels : list string)
  (v : list B) (d : B) :
  List.length labels = List.length v ->
  mask_filter (map f labels) v =
  map (fun i => nth i v d)
      (filter (fun i => f (nth i labels EmptyString)) (seq 0 (List.length labels))).
Proof.
  revert v. induction labels as [|l labels IH]; intros [|b v] E;
    try discriminate; [reflexivity|].
  injection E as E.
  cbn [List.length map mask_filter].
  change (seq 0 (S (List.length labels))) with (0%nat :: seq 1 (List.length labels)).
  rewrite <- seq_shift. cbn [filter nth].
  rewrite filter_map_comm. cbn [nth].
  destruct (f l); cbn [map nth]; rewrite map_map; cbn [nth];
    rewrite (IH v E); reflexivity.
Qed.

Lemma month_rows_index (labels : list string) (deaths : list bool) (m : string) :
  List.length labels = List.length deaths ->
  month_rows labels deaths m =
  map (fun i => nth i deaths false)
      (filter (fun i => String.eqb (nth i labels EmptyString) m)
              (seq 0 (List.length labels))).
Proof. intros E. unfold month_rows. now apply mask_filter_index. Qed.



End Step3Groups.

Section Step3TrendFacts.
Context {P : Pandas}.
Import Page Step3 Step3Trend.

(** The trend table under a comparison that was shown.  Without a
    patient_id column the page dies on KeyError patient_id after the
    comparison.  With one, the trend has a row for every month offered:
    its deaths are the deaths of the comparison for that month, and its
    admissions, which count patient identifiers, never exceed the
    admissions of the comparison, which count records. *)
Theorem trend_against_comparison (s : session) (df : frame) (labels : list string)
  (choice1 choice2 : nat) (cmp : comparison) :
  prepare s = Shown (df, labels) ->
  compare s choice1 choice2 = Shown cmp ->
  match col "patient_id" df with
  | None => trend_df s = Raised (KeyError "patient_id")
  | Some _ =>
      exists rows,
        trend_df s = Shown rows /\
        forall m, In m (months_of labels) ->
          exists r,
            In r rows /\ Step2.month r = m /\
            Step2.total_deaths r
            = total_dead (mortality_stats (month_rows labels (is_death df) m)) /\
            (Step2.total_admissions r
             <= total_adm (mortality_stats (month_rows labels (is_death df) m)))%nat
  end.
Proof.
  intros Hp Hc. apply compare_shown in Hc.
  destruct Hc as (df' & labels' & Hp' & L2 & _).
  rewrite Hp in Hp'. injection Hp' as <- <-.
  unfold trend_df. rewrite Hp. cbv beta iota delta [bind fst snd].
  destruct (Nat.ltb_spec (List.length (months_of labels)) 2) as [X|_]; [lia|].
  unfold getitem. destruct (col "patient_id" df) as [ids|]; [|reflexivity].
  eexists. split; [reflexivity|].
  intros m Hm.
  exists (Step2.group_row labels ids (is_death df) df m).
  split; [apply in_map; exact Hm|]. split; [reflexivity|].
  assert (Ln : List.length labels = nrows df)
    by (eapply prepare_labels_length; eauto).
  assert (L : List.length labels = List.length (is_death df))
    by (now rewrite is_death_length).
  unfold Step2.group_row, mortality_stats.
  cbn [Step2.total_deaths Step2.total_admissions total_dead total_adm].
  rewrite month_rows_index by exact L. unfold index. rewrite <- Ln.
  split; [reflexivity|].
  rewrite length_map. apply filter_length_le.
Qed.

End Step3TrendFacts.

(** ** Step 4: the table of deaths by age group *)

Section Step4Totals.
Context {P : Pandas}.
Import Page Step4.

Lemma age_group_label (x : cell) (g : string) :
  age_group x = Shown g -> In g bucket_order.
Proof.
  unfold age_group, bucket_order.
  destruct x; try discriminate; cbv beta iota delta [num];
    try (intros H; injection H as <-; simpl; auto 10; fail);
    repeat match goal with
           | |- context [Qle_bool ?a ?b] => destruct (Qle_bool a b)
           end; cbn [negb]; intros H; injection H as <-; simpl; auto 10.
Qed.

Lemma traverse_length {A B : Type} (f : A -> outcome B) (l : list A) (ys : list B) :
  traverse f l = Shown ys -> List.length ys = List.length l.
Proof.
  intros H. apply traverse_shown in H. induction H; simpl; auto.
Qed.

Lemma traverse_all {A B : Type} (f : A -> outcome B) (Q : B -> Prop)
  (l : list A) (ys : list B) :
  traverse f l = Shown ys ->
  (forall x y, f x = Shown y -> Q y) ->
  forall y, In y ys -> Q y.
Proof.
  intros H HQ. apply traverse_shown in H.
  induction H as [|x y l ys E _ IH]; intros y' [].
  - subst y'. eauto.
  - now apply IH.
Qed.

Lemma list_sum_positive (l : list (string * nat)) :
  list_sum (map snd (filter (fun p => (0 <? snd p)%nat) l)) = list_sum (map snd l).
Proof.
  induction l as [|[k n] l IH]; simpl; [reflexivity|].
  destruct n; simpl; rewrite IH; reflexivity.
Qed.

Lemma NoDup_bucket_order : NoDup bucket_order.
Proof.
  unfold bucket_order.
  repeat (constructor; [simpl; intuition discriminate|]). constructor.
Qed.

Lemma age_counts_shown (s : session) (df : frame) (c : string)
  (rows : list (string * nat)) :
  prepare s = Shown (df, c) ->
  age_counts s = Shown (Some rows) ->
  exists groups,
    traverse (fun i => age_group (field "age_days" df i)) (death_rows df c)
    = Shown groups /\
    death_rows df c <> [] /\
    rows = filter (fun p => (0 <? snd p)%nat)
                  (map (fun b => (b, count_of b groups)) bucket_order).
Proof.
  intros Hp Ha. unfold age_counts in Ha. rewrite Hp in Ha.
  cbv beta iota delta [bind fst snd] in Ha.
  destruct (death_rows df c) as [|i r] eqn:Er; [discriminate|].
  destruct (traverse _ (i :: r)) as [gs| |] eqn:Et; try discriminate.
  exists gs. split; [reflexivity|]. split; [discriminate|].
  rewrite <- reindex_dropna_spec. congruence.
Qed.

(** Every death is in one bucket.  When the table of deaths by age group
    is shown, it is not empty, its buckets are distinct buckets of the
    fixed list, and its counts add up to the number of records whose
    outcome is dead. *)
Theorem age_counts_total (s : session) (df : frame) (c : string)
  (rows : list (string * nat)) :
  prepare s = Shown (df, c) ->
  age_counts s = Shown (Some rows) ->
  list_sum (map snd rows) = List.length (death_rows df c) /\
  rows <> [] /\
  NoDup (map fst rows) /\
  forall b, In b (map fst rows) -> In b bucket_order.
Proof.
  intros Hp Ha.
  destruct (age_counts_shown s df c rows Hp Ha) as (gs & Et & Ne & ->).
  assert (Hg : forall g, In g gs -> In g bucket_order).
  { apply (traverse_all _ (fun g => In g bucket_order) _ _ Et).
    intros i g. apply age_group_label. }
  assert (Sum : list_sum (map snd (filter (fun p => (0 <? snd p)%nat)
                                          (map (fun b => (b, count_of b gs)) bucket_order)))
                = List.length gs).
  { rewrite list_sum_positive, map_map. cbn [snd]. unfold count_of.
    rewrite (map_ext _ (fun m => List.length
                                   (filter (fun x => String.eqb x m && true) gs))).
    2:{ intros m. f_equal. apply filter_ext. intros x.
        now rewrite andb_true_r, String.eqb_sym. }
    rewrite (groups_partition (fun x => x) (fun _ => true) _ _
               NoDup_bucket_order Hg).
    clear. induction gs; simpl; auto. }
  split; [rewrite Sum; now apply traverse_length in Et|].
  split.
  { intros E. rewrite E in Sum. simpl in Sum.
    apply traverse_length in Et. destruct (death_rows df c); [congruence|].
    simpl in Et. lia. }
  assert (Sub : forall l, map fst (filter (fun p => (0 <? snd p)%nat)
                                          (map (fun b => (b, count_of b gs)) l))
                          = filter (fun b => (0 <? count_of b gs)%nat) l).
  { induction l as [|b l IH]; simpl; [reflexivity|].
    destruct (0 <? count_of b gs)%nat; simpl; now rewrite IH. }
  rewrite Sub. split.
  - apply NoDup_filter, NoDup_bucket_order.
  - intros b Hb. apply filter_In in Hb. tauto.
Qed.

Lemma traverse_cases {A B : Type} (f : A -> outcome B) (ok : A -> bool)
  (e : error) (l : list A) :
  (forall x, ok x = true -> exists y, f x = Shown y) ->
  (forall x, ok x = false -> f x = Raised e) ->
  if forallb ok l then exists ys, traverse f l = Shown ys
  else traverse f l = Raised e.
Proof.
  intros Hok Hbad. induction l as [|x l IH]; simpl; [eauto|].
  destruct (ok x) eqn:E; simpl.
  - destruct (Hok x E) as [y ->]. cbv beta iota delta [bind].
    destruct (forallb ok l).
    + destruct IH as [ys ->]. eauto.
    + now rewrite IH.
  - now rewrite (Hbad x E).
Qed.

(** What the age table comes to.  With no death record the page reports
    that there is none.  With death records whose ages are all numbers or
    missing the table is shown.  As soon as one death record has a text or
    a date for its age, the page dies on a TypeError. *)
Theorem age_counts_cases (s : session) (df : frame) (c : string) :
  prepare s = Shown (df, c) ->
  match death_rows df c with
  | [] => age_counts s = Shown None
  | rows =>
      if forallb (fun i => match field "age_days" df i with
                           | NA | Int _ | Float _ => true
                           | _ => false
                           end) rows
      then exists table, age_counts s = Shown (Some table)
      else age_counts s = Raised TypeError
  end.
Proof.
  intros Hp. unfold age_counts. rewrite Hp. cbv beta iota delta [bind fst snd].
  destruct (death_rows df c) as [|i r]; [reflexivity|].
  pose proof (traverse_cases
                (fun i => age_group (field "age_days" df i))
                (fun i => match field "age_days" df i with
                          | NA | Int _ | Float _ => true
                          | _ => false
                          end) TypeError (i :: r)) as H.
  match type of H with
  | ?A -> ?B -> _ => assert (HA : A); [|assert (HB : B); [|specialize (H HA HB)]]
  end.
  - intros x Hx. destruct (field "age_days" df x); try discriminate;
      unfold age_group; cbv beta iota delta [num]; eauto.
  - intros x Hx. destruct (field "age_days" df x); try discriminate; reflexivity.
  - destruct (forallb _ (i :: r)).
    + destruct H as [ys ->]. eauto.
    + now rewrite H.
Qed.

End Step4Totals.

(** ** From step 1 to the other pages *)

Section Sessions.
Context {P : Pandas}.
Import Page Shape.

Lemma pipeline_normalized (raw : frame) : normalized (Step1.pipeline raw).
Proof.
  intros c Hc. unfold has_col, Step1.pipeline.
  simpl in Hc. destruct Hc as [<-|[<-|[<-|[<-|[]]]]].
  - rewrite derive_month_other, normalize_diagnosis_other,
      normalize_outcome_other by discriminate.
    unfold Step1.normalize_sex. destruct (col "sex" _); cbn [fst];
      now rewrite col_set_same.
  - rewrite derive_month_other, normalize_diagnosis_other by discriminate.
    unfold Step1.normalize_outcome. destruct (col "outcome" _); cbn [fst];
      now rewrite col_set_same.
  - rewrite derive_month_other by discriminate.
    set (d3 := fst (Step1.normalize_outcome _)).
    unfold Step1.normalize_diagnosis.
    destruct (col "primary_diagnosis" d3) eqn:E; cbn [fst]; [now rewrite E|].
    destruct (Step1.col_exists_any d3 _); cbn [fst]; now rewrite col_set_same.
  - unfold Step1.derive_month.
    destruct (Step1.usable_date "admission_date" _); cbn [fst];
      [now rewrite col_set_same|].
    destruct (Step1.usable_date "death_date" _); cbn [fst];
      now rewrite col_set_same.
Qed.

Lemma accepted_table (raw : frame) :
  Step1.errors (Step1.validate_and_normalize raw) = [] ->
  Step1.table (Step1.validate_and_normalize raw) = Some (Step1.pipeline raw).
Proof.
  intros E.
  assert (G : existsb (fun c => has_col c (Step1.strip_columns raw))
                      Step1.minimal_candidates = true).
  { destruct (existsb _ Step1.minimal_candidates) eqn:G; [reflexivity|].
    unfold Step1.validate_and_normalize in E. rewrite G in E. discriminate. }
  rewrite (normalize_unfold raw G). reflexivity.
Qed.

Lemma store_current_cases (auto_store : bool) (read : option frame) (s : session) :
  Step1Page.store_current auto_store read s = s \/
  exists raw, read = Some raw /\ auto_store = true /\
              Step1.errors (Step1.validate_and_normalize raw) = [] /\
              Step1Page.store_current auto_store read s
              = mkSession (Some (Step1.pipeline raw)) (df_previous s).
Proof.
  unfold Step1Page.store_current. destruct read as [raw|]; [|now left].
  cbv zeta.
  destruct (Step1.errors (Step1.validate_and_normalize raw)) eqn:E; [|now left].
  destruct auto_store; [|now left].
  right. exists raw. rewrite (accepted_table raw E). auto.
Qed.

Lemma store_previous_cases (auto_store : bool) (read : option frame) (s : session) :
  Step1Page.store_previous auto_store read s = s \/
  exists raw, read = Some raw /\ auto_store = true /\
              Step1.errors (Step1.validate_and_normalize raw) = [] /\
              Step1Page.store_previous auto_store read s
              = mkSession (df_current s) (Some (Step1.pipeline raw)).
Proof.
  unfold Step1Page.store_previous. destruct read as [raw|]; [|now left].
  cbv zeta.
  destruct (Step1.errors (Step1.validate_and_normalize raw)) eqn:E; [|now left].
  destruct auto_store; [|now left].
  right. exists raw. rewrite (accepted_table raw E). auto.
Qed.

(** The upload page keeps the session sound.  Whatever files are offered,
    a run of the page leaves in the session only tables that carry
    sex_norm, outcome_norm, primary_diagnosis and month; it changes
    nothing when storing is switched off; and a current-month file that is
    unreadable or refused with errors leaves the current month as it
    was. *)
Theorem upload_keeps_session (auto_store : bool) (current previous : option frame)
  (s : session) :
  stored_normalized s ->
  stored_normalized (Step1Page.run auto_store current previous s) /\
  (auto_store = false -> Step1Page.run auto_store current previous s = s) /\
  ((current = None \/
    exists raw, current = Some raw /\
                Step1.errors (Step1.validate_and_normalize raw) <> []) ->
   df_current (Step1Page.run auto_store current previous s) = df_current s).
Proof.
  intros [Hc Hp]. unfold Step1Page.run.
  destruct (store_current_cases auto_store current s)
    as [Ec|(rc & Erc & Ac & Errc & Ec)];
    destruct (store_previous_cases auto_store previous
                (Step1Page.store_current auto_store current s))
    as [Ep|(rp & Erp & Ap & Errp & Ep)];
    rewrite Ep; clear Ep; rewrite ?Ec.
  - repeat split; auto; congruence.
  - cbn [df_current df_previous]. split; [|split].
    + split; cbn [df_current df_previous]; [exact Hc|].
      intros df E. injection E as <-. apply pipeline_normalized.
    + congruence.
    + reflexivity.
  - split; [|split].
    + split; cbn [df_current df_previous]; [|exact Hp].
      intros df E. injection E as <-. apply pipeline_normalized.
    + congruence.
    + intros [E|(raw & E & Err)]; [congruence|].
      rewrite Erc in E. injection E as <-. contradiction.
  - cbn [df_current df_previous]. split; [|split].
    + split; cbn [df_current df_previous]; intros df E; injection E as <-;
        apply pipeline_normalized.
    + congruence.
    + intros [E|(raw & E & Err)]; [congruence|].
      rewrite Erc in E. injection E as <-. contradiction.
Qed.

Lemma col_tabulate (g : string -> column) (labels : list string) (c : string) :
  col c (map (fun k => (k, g k)) labels) =
  if existsb (String.eqb c) labels then Some (g c) else None.
Proof.
  induction labels as [|k labels IH]; simpl; [reflexivity|].
  rewrite (String.eqb_sym c k).
  destruct (String.eqb k c) eqn:E; simpl; auto.
  apply String.eqb_eq in E. now subst.
Qed.

(** The merged table has the columns of both months. *)
Lemma has_col_concat (a b : frame) (c : string) :
  has_col c (concat a b) = has_col c a || has_col c b.
Proof.
  unfold has_col at 1, concat. rewrite col_tabulate.
  rewrite existsb_app.
  assert (Ea : existsb (String.eqb c) (columns a) = has_col c a).
  { apply eq_true_iff_eq. rewrite existsb_exists, has_col_In.
    split; [intros (x & Hx & E); apply String.eqb_eq in E; now subst|].
    intros H. exists c. split; [exact H | apply String.eqb_refl]. }
  rewrite Ea. destruct (has_col c a) eqn:Ha; simpl; [reflexivity|].
  assert (Eb : existsb (String.eqb c)
                 (filter (fun k => negb (has_col k a)) (columns b)) = has_col c b).
  { apply eq_true_iff_eq. rewrite existsb_exists, has_col_In.
    split.
    - intros (x & Hx & E). apply String.eqb_eq in E. subst x.
      apply filter_In in Hx. tauto.
    - intros H. exists c. split; [|apply String.eqb_refl].
      apply filter_In. split; [exact H | now rewrite Ha]. }
  rewrite Eb. now destruct (has_col c b).
Qed.

Lemma month_as_text_runs (d : frame) (n : notice) :
  Step4.month_as_text d <> Stopped n.
Proof.
  unfold Step4.month_as_text. destruct (col "month" d) as [[|[] ?]|]; discriminate.
Qed.

Lemma compute_age_days_runs (d : frame) (i : nat) (n : notice) :
  Step4.compute_age_days d i <> Stopped n.
Proof.
  assert (T : forall k x, Step4.times k x <> Stopped n) by (intros k []; discriminate).
  unfold Step4.compute_age_days.
  repeat (destruct (notna _); [first [discriminate | apply T]|]).
  discriminate.
Qed.

Lemma traverse_runs {A B : Type} (f : A -> outcome B) (l : list A) (n : notice) :
  (forall x, f x <> Stopped n) -> Step4.traverse f l <> Stopped n.
Proof.
  intros H. induction l as [|x l IH]; simpl; [discriminate|].
  pose proof (H x) as Hx.
  destruct (f x); cbv beta iota delta [bind]; [|congruence|discriminate].
  destruct (Step4.traverse f l); [discriminate|congruence|discriminate].
Qed.

(** The page once the outcome column is found. *)
Lemma prepare_found (s : session) (d : frame) (c0 : string) :
  Step4.load s = Shown d ->
  Step4.detect_outcome d = Shown c0 ->
  (forall n, Step4.prepare s <> Stopped n) /\
  forall df c, Step4.prepare s = Shown (df, c) -> c = c0.
Proof.
  intros Hl Hd. unfold Step4.prepare. rewrite Hl.
  cbv beta iota delta [bind]. rewrite Hd. cbv beta iota zeta.
  destruct (Step4.month_as_text (Step4.lower_outcome c0 d)) as [m|n'|e] eqn:Em.
  - destruct (Step4.traverse (Step4.compute_age_days m) (index m)) as [a|n'|e] eqn:Et.
    + split; [discriminate|]. intros df c H. now injection H as _ <-.
    + exfalso. apply (traverse_runs (Step4.compute_age_days m) (index m) n');
        [intros x; apply compute_age_days_runs | exact Et].
    + split; discriminate.
  - exfalso. exact (month_as_text_runs _ _ Em).
  - split; discriminate.
Qed.

(** On a session filled by step 1 the diagnosis and age page always finds
    its outcome column: it never stops for want of one, and the outcomes
    it reads are those of outcome_norm, not of the uploaded outcome
    column. *)
Theorem step4_reads_outcome_norm (s : session) :
  stored_normalized s ->
  Step4.prepare s <> Stopped NoOutcomeColumn /\
  forall df c, Step4.prepare s = Shown (df, c) -> c = "outcome_norm".
Proof.
  intros [Hc Hp].
  assert (D : forall d, has_col "outcome_norm" d = true ->
                        Step4.detect_outcome d = Shown "outcome_norm").
  { intros d H. unfold Step4.detect_outcome. now rewrite H. }
  assert (In4 : In "outcome_norm" derived_columns) by (simpl; auto).
  destruct (df_current s) as [cur|] eqn:Ecu.
  - assert (L : exists d, Step4.load s = Shown d /\ has_col "outcome_norm" d = true).
    { unfold Step4.load. rewrite Ecu.
      destruct (df_previous s) as [prev|] eqn:Epv.
      - eexists. split; [reflexivity|]. rewrite has_col_concat.
        now rewrite (Hp prev eq_refl _ In4).
      - eexists. split; [reflexivity|]. exact (Hc cur eq_refl _ In4). }
    destruct L as (d & Hl & Hh).
    destruct (prepare_found s d "outcome_norm" Hl (D d Hh)) as [A B].
    split; [apply A | exact B].
  - unfold Step4.prepare, Step4.load. rewrite Ecu.
    destruct (df_previous s); cbv beta iota delta [bind]; split; discriminate.
Qed.

End Sessions.

Section EmptyUpload.
Context {P : Pandas}.
Import Page Shape.

Lemma pipeline_records (n : nat) (raw : frame) :
  rectangular n raw -> Step1.strip_columns raw <> [] ->
  records n (Step1.pipeline raw).
Proof.
  intros R N. unfold Step1.pipeline.
  apply records_derive_month, records_normalize_diagnosis,
    records_normalize_outcome, records_normalize_sex, records_derive_age,
    records_parse_dates.
  split; [now apply rectangular_strip | exact N].
Qed.

(** A file with a header and no record.  Step 1 accepts it when the
    header passes the gate, and on that table alone the diagnosis and age
    page dies on an IndexError: it reads the first month of an empty
    column. *)
Theorem empty_upload_breaks_step4 (raw df : frame) :
  rectangular 0 raw ->
  Step1.table (Step1.validate_and_normalize raw) = Some df ->
  Step4.prepare (mkSession (Some df) None) = Raised IndexError.
Proof.
  intros R T.
  assert (N : Step1.strip_columns raw <> []).
  { apply table_gate in T. intros E. rewrite E in T. discriminate. }
  apply table_pipeline in T. subst df.
  pose proof (pipeline_records 0 raw R N) as Rec.
  pose proof (pipeline_normalized raw) as Nm.
  unfold Step4.prepare, Step4.load. cbn [df_current df_previous].
  cbv beta iota delta [bind].
  unfold Step4.detect_outcome.
  rewrite (Nm "outcome_norm") by (simpl; auto).
  cbv beta iota zeta.
  unfold Step4.month_as_text, Step4.lower_outcome.
  rewrite col_set_other by discriminate.
  assert (M : has_col "month" (Step1.pipeline raw) = true)
    by (apply Nm; simpl; auto).
  unfold has_col in M.
  destruct (col "month" (Step1.pipeline raw)) as [v|] eqn:Ev; [|discriminate].
  pose proof (records_col 0 _ _ _ Rec Ev) as L.
  destruct v; [reflexivity | discriminate].
Qed.

End EmptyUpload.

(** ** Deaths by text: the pages against step 1 *)

Section TextDeaths.
Import PyStr Shape.

Lemma prefix_nonempty (sub s : string) :
  sub <> EmptyString -> String.prefix sub s = true -> s <> EmptyString.
Proof. destruct sub, s; simpl; congruence. Qed.

Lemma prefix_rstrip (sub s : string) :
  no_blank sub -> String.prefix sub s = true ->
  String.prefix sub (rstrip s) = true.
Proof.
  revert s. induction sub as [|a sub IH]; intros s Hn Hp.
  - now destruct (rstrip s).
  - destruct s as [|c s]; [discriminate|].
    simpl in Hp. destruct (Ascii.ascii_dec a c) as [<-|]; [|discriminate].
    destruct Hn as [Ha Hn].
    simpl. destruct sub as [|b sub].
    + destruct (rstrip s); [rewrite Ha|]; simpl;
        destruct (Ascii.ascii_dec a a); congruence.
    + pose proof (IH s Hn Hp) as Hr.
      destruct (rstrip s) as [|c' r'] eqn:E; [discriminate|].
      simpl. destruct (Ascii.ascii_dec a a); [exact Hr | congruence].
Qed.

Lemma contains_nonempty (s sub : string) :
  sub <> EmptyString -> contains s sub = true -> s <> EmptyString.
Proof.
  intros Hs. destruct s; simpl; [|discriminate].
  destruct sub; [congruence | discriminate].
Qed.

Lemma contains_rstrip (s sub : string) :
  no_blank sub -> sub <> EmptyString ->
  contains s sub = true -> contains (rstrip s) sub = true.
Proof.
  intros Hn Hs. induction s as [|c s IH]; intros H.
  - exfalso. now apply (contains_nonempty EmptyString sub Hs).
  - change (contains (String c s) sub)
      with (String.prefix sub (String c s) || contains s sub) in H.
    destruct (String.prefix sub (String c s)) eqn:Ep.
    + pose proof (prefix_rstrip sub (String c s) Hn Ep) as Hr.
      destruct (rstrip (String c s)); simpl; simpl in Hr; now rewrite Hr.
    + simpl in H. specialize (IH H).
      pose proof (contains_nonempty _ _ Hs IH) as Ne.
      simpl. destruct (rstrip s) as [|c' r'] eqn:E; [congruence|].
      change (contains (String c (String c' r')) sub)
        with (String.prefix sub (String c (String c' r'))
              || contains (String c' r') sub).
      rewrite IH. apply orb_true_r.
Qed.

Lemma contains_lstrip (s sub : string) :
  no_blank sub -> sub <> EmptyString ->
  contains s sub = true -> contains (lstrip s) sub = true.
Proof.
  intros Hn Hs. induction s as [|c s IH]; intros H; [exact H|].
  simpl lstrip. destruct (is_space c) eqn:Ec; [|exact H].
  apply IH.
  change (contains (String c s) sub)
    with (String.prefix sub (String c s) || contains s sub) in H.
  destruct sub as [|a sub]; [congruence|].
  destruct Hn as [Ha _]. simpl in H.
  destruct (Ascii.ascii_dec a c) as [<-|]; [congruence|]. exact H.
Qed.

(** A word without blanks found in a text is found in the stripped
    text. *)
Lemma contains_strip (s sub : string) :
  no_blank sub -> sub <> EmptyString ->
  contains s sub = true -> contains (strip s) sub = true.
Proof.
  intros Hn Hs H. unfold strip.
  apply contains_rstrip; auto. now apply contains_lstrip.
Qed.

End TextDeaths.

Section PagesAgree.
Context {P : Pandas}.
Import Step1.

(** Deaths by text.  A record the summary page or the comparison page
    flags as a death because of its outcome text (the text holds dead, or
    is death) is Dead for step 1, and so is among the deaths of the age
    page; the converse does not hold, as step 1 also takes every text that
    begins with d for Dead. *)
Theorem text_deaths_are_dead (x : cell) :
  (Step2.death_text x = true \/
   PyStr.contains (PyStr.strip (PyStr.lower (astype_str x))) "dead" = true) ->
  outcome_norm_of x = Str "Dead" /\
  PyStr.lower (astype_str (outcome_norm_of x)) = "dead".
Proof.
  intros H.
  assert (E : PyStr.lower (PyStr.strip (astype_str x))
              = PyStr.strip (PyStr.lower (astype_str x))).
  { unfold PyStr.lower. symmetry. apply strip_smap, is_space_lower. }
  assert (D : outcome_norm_of x = Str "Dead").
  { unfold outcome_norm_of, outcome_code. rewrite E.
    destruct H as [H|H].
    - unfold Step2.death_text in H. apply orb_true_iff in H.
      destruct H as [H|H].
      + rewrite (contains_strip _ "dead"); [reflexivity | | discriminate | exact H].
        simpl. auto.
      + apply String.eqb_eq in H. rewrite H. reflexivity.
    - now rewrite H. }
  rewrite D. split; reflexivity.
Qed.

(** The converse fails: died is not a death by text for the summary page
    and is Dead for step 1. *)
Example died_is_dead_for_step1_only :
  Step2.death_text (Str "died") = false /\
  outcome_norm_of (Str "died") = Str "Dead".
Proof. split; reflexivity. Qed.

End PagesAgree.

(** ** The further properties on small uploads *)

Section FurtherConcrete.
Import Frame Page Step1 Shape Cases.
#[local] Existing Instance Plain.pandas.

Lemma ward_table :
  table (validate_and_normalize ward_upload) = Some (pipeline ward_upload).
Proof. vm_compute. reflexivity. Qed.

Lemma sample_table :
  table (validate_and_normalize sample_upload) = Some (pipeline sample_upload).
Proof. vm_compute. reflexivity. Qed.

Lemma sample_session_normalized : stored_normalized Scenarios.sample_session.
Proof.
  split; intros df H; [|discriminate H].
  assert (E : df = pipeline sample_upload).
  { vm_compute in H. vm_compute. congruence. }
  subst df. apply pipeline_normalized.
Qed.

Lemma normalize_keeps_records_witness :
  rectangular 2 (pipeline ward_upload) /\ nrows (pipeline ward_upload) = 2%nat.
Proof.
  assert (R : rectangular 2 ward_upload) by (repeat constructor).
  exact (normalize_keeps_records 2 _ _ R ward_table).
Defined.

Lemma normalize_leaves_other_columns_witness :
  col "ward" (pipeline ward_upload) = col "ward" (strip_columns ward_upload).
Proof.
  apply (normalize_leaves_other_columns (P := Plain.pandas) ward_upload (pipeline ward_upload) "ward").
  - exact ward_table.
  - simpl. intros H.
    repeat (destruct H as [H|H]; [discriminate H|]). exact H.
Defined.

Lemma normalize_parses_dates_witness :
  col "admission_date" (pipeline ward_upload)
  = Some (to_datetime [Str "2025-09-01"; Str "soon"]) /\
  Forall is_datetime (to_datetime [Str "2025-09-01"; Str "soon"]).
Proof.
  assert (I : In "admission_date" recognized_date_cols) by (simpl; auto).
  exact (normalize_parses_dates _ _ "admission_date" ward_table I).
Defined.

Lemma month_anchor_witness :
  col "month" (pipeline ward_upload)
  = option_map (map to_period_M)
      (option_map to_datetime (col "admission_date" (strip_columns ward_upload))) /\
  date_for_month (validate_and_normalize ward_upload) = Some "admission_date".
Proof. exact (month_anchor _ _ ward_table). Defined.

Lemma diagnosis_alias_witness :
  col "primary_diagnosis" (pipeline ward_upload)
  = Some (map (fun x => Str (astype_str x)) [Str "sepsis"; Str "asthma"]) /\
  In "Mapped diagnosis column 'dx' to primary_diagnosis"
     (warnings (validate_and_normalize ward_upload)).
Proof.
  assert (N : col "primary_diagnosis" (strip_columns ward_upload) = None)
    by reflexivity.
  exact (diagnosis_alias _ _ ward_table N).
Defined.

Lemma no_warning_iff_witness :
  warnings (validate_and_normalize sample_upload) = [].
Proof.
  apply (proj2 (no_warning_iff (P := Plain.pandas) _ _ sample_table)).
  repeat split; vm_compute; discriminate.
Defined.

Lemma codes_ignore_case_and_blanks_witness :
  sex_code (Str (" " ++ "FeMale" ++ "  ")) = sex_code (Str "female") /\
  outcome_norm_of (Str (" " ++ "FeMale" ++ "  ")) = outcome_norm_of (Str "female").
Proof.
  apply (codes_ignore_case_and_blanks " " "FeMale" "  " "female"); reflexivity.
Defined.

Lemma summary_of_accepted_upload_witness :
  exists rows,
    Step2.summary (mkSession (Some (pipeline ward_upload)) None) = Shown rows.
Proof. exact (summary_of_accepted_upload _ _ ward_table). Defined.

Lemma summary_one_row_per_month_witness :
  StronglySorted (fun a b => PyStr.leb a b = true)
                 (map Step2.month two_month_summary) /\
  NoDup (map Step2.month two_month_summary) /\
  forall m, In m (map Step2.month two_month_summary) <-> In m two_month_months.
Proof.
  apply (summary_one_row_per_month (P := Plain.pandas) Scenarios.two_month_session two_month_frame);
    vm_compute; reflexivity.
Defined.


Lemma metrics_compare_last_two_witness :
  In october two_month_summary /\ In september two_month_summary /\
  Step2.month september <> Step2.month october /\
  PyStr.leb (Step2.month september) (Step2.month october) = true /\
  Step2Metrics.Change (0 - 50)%Q
  = Step2Metrics.rate_change (Step2.mortality_rate october)
                             (Step2.mortality_rate september) /\
  forall r, In r two_month_summary -> r <> october -> r <> september ->
            PyStr.leb (Step2.month r) (Step2.month september) = true /\
            Step2.month r <> Step2.month september.
Proof.
  apply (proj2 (metrics_compare_last_two (P := Plain.pandas) Scenarios.two_month_session
                  two_month_frame two_month_summary
                  ltac:(vm_compute; reflexivity) ltac:(vm_compute; reflexivity))).
  vm_compute. reflexivity.
Defined.

Lemma comparison_bounds_witness :
  (Step3.total_dead (Step3.stats1 september_against_october)
   <= Step3.total_adm (Step3.stats1 september_against_october))%nat /\
  (Step3.total_dead (Step3.stats2 september_against_october)
   <= Step3.total_adm (Step3.stats2 september_against_october))%nat /\
  (0 <= Step3.mortality_rate (Step3.stats1 september_against_october) <= 100)%Q /\
  (0 <= Step3.mortality_rate (Step3.stats2 september_against_october) <= 100)%Q /\
  (-(100) <= Step3.diff september_against_october <= 100)%Q.
Proof.
  apply (comparison_bounds (P := Plain.pandas) Scenarios.two_month_session 0 1).
  vm_compute. reflexivity.
Defined.


Lemma trend_against_comparison_witness :
  let labels := snd two_month_prepared in
  let df := fst two_month_prepared in
  exists rows,
    Step3Trend.trend_df Scenarios.two_month_session = Shown rows /\
    forall m, In m (Step3.months_of labels) ->
      exists r,
        In r rows /\ Step2.month r = m /\
        Step2.total_deaths r
        = Step3.total_dead
            (Step3.mortality_stats (Step3.month_rows labels (Step3.is_death df) m)) /\
        (Step2.total_admissions r
         <= Step3.total_adm
              (Step3.mortality_stats
                 (Step3.month_rows labels (Step3.is_death df) m)))%nat.
Proof.
  assert (A : Step3.prepare Scenarios.two_month_session
              = Shown (fst two_month_prepared, snd two_month_prepared))
    by (vm_compute; reflexivity).
  assert (B : Step3.compare Scenarios.two_month_session 0 1
              = Shown september_against_october)
    by (vm_compute; reflexivity).
  exact (trend_against_comparison _ _ _ 0%nat 1%nat _ A B).
Defined.

Lemma age_counts_total_witness :
  list_sum (map snd [("<1 month", 1%nat)])
  = List.length (Step4.death_rows (fst Scenarios.sample_ages)
                                  (snd Scenarios.sample_ages)) /\
  [("<1 month", 1%nat)] <> [] /\
  NoDup (map fst [("<1 month", 1%nat)]) /\
  forall b, In b (map fst [("<1 month", 1%nat)]) -> In b Step4.bucket_order.
Proof.
  apply (age_counts_total (P := Plain.pandas) Scenarios.sample_session); vm_compute; reflexivity.
Defined.

Lemma age_counts_cases_witness :
  exists table, Step4.age_counts Scenarios.sample_session = Shown (Some table).
Proof.
  assert (A : Step4.prepare Scenarios.sample_session
              = Shown (fst Scenarios.sample_ages, snd Scenarios.sample_ages))
    by (vm_compute; reflexivity).
  exact (age_counts_cases _ _ _ A).
Defined.

Lemma upload_keeps_session_witness :
  stored_normalized
    (Step1Page.run true (Some ward_upload) None Scenarios.sample_session) /\
  Step1Page.run false (Some ward_upload) None Scenarios.sample_session
  = Scenarios.sample_session /\
  df_current (Step1Page.run true (Some [("ward", [Str "NBU"])]) (Some ward_upload)
                            Scenarios.sample_session)
  = df_current Scenarios.sample_session.
Proof.
  split; [|split].
  - exact (proj1 (upload_keeps_session (P := Plain.pandas) true (Some ward_upload) None _
                    sample_session_normalized)).
  - exact (proj1 (proj2 (upload_keeps_session (P := Plain.pandas) false (Some ward_upload) None _
                           sample_session_normalized)) eq_refl).
  - apply (proj2 (proj2 (upload_keeps_session (P := Plain.pandas) true (Some [("ward", [Str "NBU"])])
                           (Some ward_upload) _ sample_session_normalized))).
    right. exists [("ward", [Str "NBU"])]. split; [reflexivity|].
    vm_compute. discriminate.
Defined.

Lemma step4_reads_outcome_norm_witness :
  Step4.prepare Scenarios.sample_session <> Stopped NoOutcomeColumn /\
  forall df c, Step4.prepare Scenarios.sample_session = Shown (df, c) ->
               c = "outcome_norm".
Proof. exact (step4_reads_outcome_norm _ sample_session_normalized). Defined.

Lemma empty_upload_breaks_step4_witness :
  Step4.prepare (mkSession (Some (pipeline header_only)) None) = Raised IndexError.
Proof.
  apply (empty_upload_breaks_step4 (P := Plain.pandas) header_only).
  - repeat constructor.
  - vm_compute. reflexivity.
Defined.

Lemma text_deaths_are_dead_witness :
  outcome_norm_of (Str " Found DEAD at home") = Str "Dead" /\
  PyStr.lower (astype_str (outcome_norm_of (Str " Found DEAD at home"))) = "dead".
Proof.
  apply (text_deaths_are_dead (Str " Found DEAD at home")).
  left. vm_compute. reflexivity.
Defined.

End FurtherConcrete.
